(** * The DANM endpoint cleaner (pkg/cleaner/main.go)

    A shallow embedding of the per-node cleaner: the deletion routine
    [deleteInterface], the startup sweep [cleanup] and the event watcher
    [ProcessEvent] / [Watch].  The cleaner owns no state of its own: all it
    does is call the registry (DanmNets, DanmEps, danmep), the allocator
    (ipam) and the container runtime (docker), and write to the log.  The
    embedding therefore threads an abstract world [W] through the calls and
    records every call and every log line in a trace. *)

From stdpp Require Import base strings gmap list.

Open Scope string_scope.
Open Scope list_scope.

(** * Data model *)

(** Go's [error], reduced to its message. *)
Definition error := string.

Inductive result (A : Type) : Type :=
| Ok (a : A)
| Err (e : error).
Arguments Ok {A} a.
Arguments Err {A} e.

(** meta_v1.ObjectMeta, the two fields the cleaner reads. *)
Record meta_v1_ObjectMeta := {
  Namespace : string;
  Name : string
}.

(** danmtypes.DanmEp: [ep.ObjectMeta.Namespace], [ep.ObjectMeta.Name],
    [ep.Spec.NetworkID], [ep.Spec.NetworkType], [ep.Spec.CID],
    [ep.Spec.Iface.Address]; [Host] is the key of the by-host listing. *)
Record DanmEpIface := {
  Address : string
}.

Record DanmEpSpec := {
  NetworkID : string;
  NetworkType : string;
  Host : string;
  CID : string;
  Iface : DanmEpIface
}.

Record DanmEp := {
  ObjectMeta : meta_v1_ObjectMeta;
  Spec : DanmEpSpec
}.

(** danmtypes.DanmNet: the cleaner only passes it on to [ipam.Free]. *)
Record DanmNet := {
  NetObjectMeta : meta_v1_ObjectMeta;
  NetNetworkType : string
}.

(** docker.APIContainers, docker.ListContainersOptions, docker.APIEvents
    ([Type_] is the field [Type], [EventID] the field [ID] that
    [ProcessEvent] reads, [ActorID] the field [Actor.ID]). *)
Record APIContainers := {
  ID : string;
  Status : string
}.

Record ListContainersOptions := {
  All : bool;
  Filters : gmap string (list string)
}.

Record APIActor := {
  ActorID : string;
  Attributes : gmap string string
}.

Record APIEvents := {
  Action : string;
  Type_ : string;
  Actor : APIActor;
  EventID : string
}.

Global Instance meta_v1_ObjectMeta_eq_dec : EqDecision meta_v1_ObjectMeta.
Proof. solve_decision. Defined.
Global Instance DanmEpIface_eq_dec : EqDecision DanmEpIface.
Proof. solve_decision. Defined.
Global Instance DanmEpSpec_eq_dec : EqDecision DanmEpSpec.
Proof. solve_decision. Defined.
Global Instance DanmEp_eq_dec : EqDecision DanmEp.
Proof. solve_decision. Defined.

(** Indexing a Go [map[string]string]: a missing key reads as the empty
    string. *)
Definition map_index (m : gmap string string) (k : string) : string :=
  default "" (m !! k).

(** * Calls, log lines and the trace *)

(** The four log lines of the cleaner that do not end the process:
    [glog.Errorf("Cannot fetch net info for net: %s", ...)],
    [glog.Errorf("Cleanup failed: %v", err)], [glog.Infof("eps: %v", eps)]
    and [glog.Info("Connected")]. *)
Inductive GlogEntry :=
| Errorf_Cannot_fetch_net_info (net : string)
| Errorf_Cleanup_failed (err : error)
| Infof_eps (eps : list DanmEp)
| Info_Connected.

(** What the cleaner does that can be seen from outside: a call to a
    collaborator, with its arguments, or a log line.  [Enter_deleteInterface]
    is not a call: it marks in the trace that [deleteInterface] was entered
    for an endpoint, so that a trace tells for which endpoints the routine
    ran. *)
Inductive Event :=
| Call_Hostname
| Call_CidsByHost (host : string)
| Call_ListContainers (opts : ListContainersOptions)
| Call_FindByCid (cid : string)
| Call_DanmNets_Get (ns name : string)
| Call_ipam_Free (netInfo : DanmNet) (ip : string)
| Call_DanmEps_Delete (ns name : string)
| Call_AddEventListener
| Glog (entry : GlogEntry)
| Enter_deleteInterface (ep : DanmEp).

(** The collaborators the cleaner calls.  None of them is part of
    pkg/cleaner: they are parameters, each a transition of the world that
    also yields the call's outcome. *)
Class Clients (W : Type) := {
  os_Hostname : W → result string * W;
  danmep_CidsByHost : string → W → result (list DanmEp) * W;
  danmep_FindByCid : string → W → result (list DanmEp) * W;
  docker_ListContainers : ListContainersOptions → W → result (list APIContainers) * W;
  docker_AddEventListener : W → option error * W;
  DanmNets_Get : string → string → W → result DanmNet * W;
  ipam_Free : DanmNet → string → W → result unit * W;
  DanmEps_Delete : string → string → W → result unit * W
}.

(** * The monad: world and trace, with [glog.Fatal] as the only exit *)

Record State (W : Type) := mkState {
  world : W;
  trace : list Event
}.
Arguments mkState {W} world trace.
Arguments world {W} s.
Arguments trace {W} s.

Inductive Outcome (A : Type) : Type :=
| Done (a : A)
| Fatal (msg : string).
Arguments Done {A} a.
Arguments Fatal {A} msg.

Definition M (W A : Type) : Type := State W → Outcome A * State W.

Global Instance M_ret {W} : MRet (M W) := λ A a s, (Done a, s).

Global Instance M_bind {W} : MBind (M W) := λ A B k m s,
  match m s with
  | (Done a, s') => k a s'
  | (Fatal msg, s') => (Fatal msg, s')
  end.

Definition emit {W} (ev : Event) : M W unit :=
  λ s, (Done tt, mkState (world s) (trace s ++ [ev])).

Definition call {W A} (ev : Event) (op : W → A * W) : M W A :=
  λ s, match op (world s) with
       | (a, w') => (Done a, mkState w' (trace s ++ [ev]))
       end.

Definition glog {W} (entry : GlogEntry) : M W unit := emit (Glog entry).

Definition glog_Fatal {W A} (msg : string) : M W A := λ s, (Fatal msg, s).

(** [for _, x := range l { body }] *)
Fixpoint range {W A} (l : list A) (body : A → M W unit) : M W unit :=
  match l with
  | [] => mret tt
  | x :: l' => body x ;; range l' body
  end.

(** * The program *)

Section Cleaner.
Context {W : Type} `{!Clients W}.

(** main.go:142 *)
Definition deleteInterface (ep : DanmEp) : M W unit :=
  emit (Enter_deleteInterface ep) ;;
  let ns := Namespace (ObjectMeta ep) in
  r ← call (Call_DanmNets_Get ns (NetworkID (Spec ep)))
           (DanmNets_Get ns (NetworkID (Spec ep)));
  match r with
  | Err _ => glog (Errorf_Cannot_fetch_net_info (NetworkID (Spec ep)))
  | Ok netInfo =>
      (if bool_decide (NetworkType (Spec ep) ≠ "ipvlan")
       then call (Call_ipam_Free netInfo (Address (Iface (Spec ep))))
                 (ipam_Free netInfo (Address (Iface (Spec ep)))) ;; mret tt
       else mret tt) ;;
      call (Call_DanmEps_Delete ns (Name (ObjectMeta ep)))
           (DanmEps_Delete ns (Name (ObjectMeta ep))) ;;
      mret tt
  end.

(** main.go:130 *)
Fixpoint contains (x : list string) (y : string) : bool :=
  match x with
  | [] => false
  | z :: x' => if bool_decide (z = y) then true else contains x' y
  end.

(** main.go:159 *)
Definition getHostname : M W string :=
  r ← call Call_Hostname os_Hostname;
  match r with
  | Err err => glog_Fatal ("hostname " +:+ err)
  | Ok ret => mret ret
  end.

Definition optDead : ListContainersOptions :=
  {| All := true; Filters := {[ "status" := ["exited"] ]} |}.

Definition optAll : ListContainersOptions :=
  {| All := true; Filters := ∅ |}.

(** main.go:106-110: [cids = append(cids, container.ID)] for each
    container. *)
Definition collect_cids (dockerAll : list APIContainers) : list string :=
  foldl (λ cids container, cids ++ [ID container]) [] dockerAll.

(** main.go:112-118, the first loop of [cleanup]: delete dead containers'
    eps. *)
Definition cleanup_dead (eps : list DanmEp) (dockerDeads : list APIContainers) : M W unit :=
  range dockerDeads (λ dead,
    range eps (λ ep,
      if bool_decide (CID (Spec ep) = ID dead)
      then deleteInterface ep
      else mret tt)).

(** main.go:120-124, the second loop of [cleanup]: delete eps which are
    not existing on the host. *)
Definition cleanup_missing (eps : list DanmEp) (cids : list string) : M W unit :=
  range eps (λ ep,
    if negb (contains cids (CID (Spec ep)))
    then deleteInterface ep
    else mret tt).

(** main.go:85 *)
Definition cleanup : M W unit :=
  hostname ← getHostname;
  r ← call (Call_CidsByHost hostname) (danmep_CidsByHost hostname);
  match r with
  | Err err => glog (Errorf_Cleanup_failed err)
  | Ok eps =>
      r ← call (Call_ListContainers optDead) (docker_ListContainers optDead);
      match r with
      | Err err => glog (Errorf_Cleanup_failed err)
      | Ok dockerDeads =>
          r ← call (Call_ListContainers optAll) (docker_ListContainers optAll);
          match r with
          | Err err => glog (Errorf_Cleanup_failed err)
          | Ok dockerAll =>
              let cids := collect_cids dockerAll in
              cleanup_dead eps dockerDeads ;;
              cleanup_missing eps cids
          end
      end
  end.

(** main.go:28 *)
Definition ProcessEvent (event : APIEvents) : M W unit :=
  let containerAttrs := Attributes (Actor event) in
  if bool_decide (map_index containerAttrs "io.kubernetes.docker.type" ≠ "podsandbox")
  then mret tt
  else
    if bool_decide (Action event = "kill") || bool_decide (Action event = "die")
       || bool_decide (Action event = "stop") || bool_decide (Action event = "destroy")
    then
      r ← call (Call_FindByCid (EventID event)) (danmep_FindByCid (EventID event));
      match r with
      | Err _ => mret tt
      | Ok eps =>
          glog (Infof_eps eps) ;;
          range eps (λ ep, deleteInterface ep)
      end
    else mret tt.

(** main.go:68-71: the body of the receive loop, run for one message. *)
Definition Watch_receive (msg : APIEvents) : M W unit :=
  if bool_decide (Type_ msg = "container")
  then ProcessEvent msg
  else mret tt.

(** main.go:49.  The loop never exits; [delivered] is the finite prefix
    of the event stream received so far, and the state returned is the
    one in which the loop waits for the next message.  The deferred
    [RemoveEventListener] runs only when [Watch] returns, which it does
    not ([glog.Fatal] exits the process without running it). *)
Definition Watch (delivered : list APIEvents) : M W unit :=
  err ← call Call_AddEventListener docker_AddEventListener;
  match err with
  | Some e => glog_Fatal e
  | None =>
      glog Info_Connected ;;
      range delivered Watch_receive
  end.

(** A loop that runs the deletion routine for the endpoints a guard
    selects: the shape of the three loops of the cleaner. *)
Definition guarded (selected : DanmEp → bool) (ep : DanmEp) : M W unit :=
  if selected ep then deleteInterface ep else mret tt.

End Cleaner.

(** * The start of the process *)

(** What [main] and [danmClient] call before the sweep: the constructor of
    the runtime client, the parsing of the command line (which fills the
    package variable [kubeconfig], declared with the default "" in [init])
    and the two steps that build the registry client.  They are parameters
    as well.  [rest_Config] is the configuration [BuildConfigFromFlags]
    hands to [NewForConfig]. *)
Class Startup (W : Type) := {
  rest_Config : Type;
  docker_NewClientFromEnv : W → option error * W;
  flag_Parse : W → string * W;
  clientcmd_BuildConfigFromFlags : string → string → W → result rest_Config * W;
  danmclientset_NewForConfig : rest_Config → W → option error * W
}.

(** A step of the start of the process: it reads or changes the world and
    reaches none of the three services, so the trace stays as it is. *)
Definition setup {W A} (op : W → A * W) : M W A :=
  λ s, match op (world s) with
       | (a, w') => (Done a, mkState w' (trace s))
       end.

(** [panic(err)]: the process ends, as after [glog.Fatal]; the message
    tells the two apart. *)
Definition panic {W A} (err : error) : M W A :=
  λ s, (Fatal ("panic: " +:+ err), s).

Section Process.
Context {W : Type} `{!Clients W} `{!Startup W}.

(** main.go:170 *)
Definition danmClient : M W unit :=
  kubeconfig ← setup flag_Parse;
  r ← setup (clientcmd_BuildConfigFromFlags "" kubeconfig);
  match r with
  | Err err => glog_Fatal ("Error building kubeconfig: " +:+ err)
  | Ok cfg =>
      err ← setup (danmclientset_NewForConfig cfg);
      match err with
      | Some e => glog_Fatal ("Error building example clientset: " +:+ e)
      | None => mret tt
      end
  end.

(** main.go:184; [delivered] is handed on to [Watch]. *)
Definition main (delivered : list APIEvents) : M W unit :=
  err ← setup docker_NewClientFromEnv;
  match err with
  | Some e => panic e
  | None =>
      danmClient ;;
      cleanup ;;
      Watch delivered
  end.

End Process.

(** * Reading the trace *)

(** The endpoints the deletion routine was entered for, in order. *)
Definition invocations (t : list Event) : list DanmEp :=
  omap (λ ev, match ev with Enter_deleteInterface ep => Some ep | _ => None end) t.

(** The [(network, address)] arguments of the address releases. *)
Definition releases (t : list Event) : list (DanmNet * string) :=
  omap (λ ev, match ev with Call_ipam_Free n ip => Some (n, ip) | _ => None end) t.

(** The [(namespace, name)] arguments of the endpoint deletions. *)
Definition deletions (t : list Event) : list (string * string) :=
  omap (λ ev, match ev with Call_DanmEps_Delete ns n => Some (ns, n) | _ => None end) t.

(** The container identifiers the registry was searched for. *)
Definition lookups (t : list Event) : list string :=
  omap (λ ev, match ev with Call_FindByCid cid => Some cid | _ => None end) t.

(** The log lines written. *)
Definition glogs (t : list Event) : list GlogEntry :=
  omap (λ ev, match ev with Glog e => Some e | _ => None end) t.

(** The [(namespace, name)] arguments of the fetches of a network
    definition. *)
Definition fetches (t : list Event) : list (string * string) :=
  omap (λ ev, match ev with Call_DanmNets_Get ns n => Some (ns, n) | _ => None end) t.

(** The networks whose fetch was logged as failed. *)
Definition fetch_failures (t : list Event) : list string :=
  omap (λ ev, match ev with
              | Glog (Errorf_Cannot_fetch_net_info net) => Some net
              | _ => None
              end) t.

(** The key of an endpoint record in the registry. *)
Definition ep_key (ep : DanmEp) : string * string :=
  (Namespace (ObjectMeta ep), Name (ObjectMeta ep)).

(** The events the deletion routine adds to a trace. *)
Definition of_routine (ev : Event) : bool :=
  match ev with
  | Enter_deleteInterface _ | Call_DanmNets_Get _ _ | Call_ipam_Free _ _
  | Call_DanmEps_Delete _ _ | Glog (Errorf_Cannot_fetch_net_info _) => true
  | _ => false
  end.

(** The messages [Watch] acts on: container events of a pod sandbox with
    one of the four actions. *)
Definition relevant (msg : APIEvents) : Prop :=
  Type_ msg = "container"
  ∧ Attributes (Actor msg) !! "io.kubernetes.docker.type" = Some "podsandbox"
  ∧ Action msg ∈ ["kill"; "die"; "stop"; "destroy"].

Global Instance relevant_dec (msg : APIEvents) : Decision (relevant msg).
Proof. unfold relevant. apply _. Defined.

(** The traces made of whole runs of the deletion routine, with events
    from outside the routine before, between and after them.  A run is one
    of three blocks: entry, fetch and the log line of the failed fetch;
    entry, fetch and deletion, for an endpoint of the exempt type; entry,
    fetch, release and deletion, for any other endpoint. *)
Inductive routine_blocks : list Event → Prop :=
| blocks_nil : routine_blocks []
| blocks_other ev t :
    of_routine ev = false → routine_blocks t → routine_blocks (ev :: t)
| blocks_failed ep t :
    routine_blocks t →
    routine_blocks
      (Enter_deleteInterface ep
       :: Call_DanmNets_Get (Namespace (ObjectMeta ep)) (NetworkID (Spec ep))
       :: Glog (Errorf_Cannot_fetch_net_info (NetworkID (Spec ep))) :: t)
| blocks_exempt ep t :
    NetworkType (Spec ep) = "ipvlan" →
    routine_blocks t →
    routine_blocks
      (Enter_deleteInterface ep
       :: Call_DanmNets_Get (Namespace (ObjectMeta ep)) (NetworkID (Spec ep))
       :: Call_DanmEps_Delete (Namespace (ObjectMeta ep)) (Name (ObjectMeta ep)) :: t)
| blocks_pooled ep netInfo t :
    NetworkType (Spec ep) ≠ "ipvlan" →
    routine_blocks t →
    routine_blocks
      (Enter_deleteInterface ep
       :: Call_DanmNets_Get (Namespace (ObjectMeta ep)) (NetworkID (Spec ep))
       :: Call_ipam_Free netInfo (Address (Iface (Spec ep)))
       :: Call_DanmEps_Delete (Namespace (ObjectMeta ep)) (Name (ObjectMeta ep)) :: t).

(** In a trace, every release comes right after the entry of the routine
    for an endpoint and the fetch of its network, is for the address of that
    endpoint, which is not of the exempt type, and has the deletion of that
    endpoint's record right after it. *)
Definition releases_then_deletes (t : list Event) : Prop :=
  ∀ before netInfo ip after,
    t = before ++ Call_ipam_Free netInfo ip :: after →
    ∃ ep before' after',
      before = before' ++ [Enter_deleteInterface ep;
                           Call_DanmNets_Get (Namespace (ObjectMeta ep)) (NetworkID (Spec ep))]
      ∧ after = Call_DanmEps_Delete (Namespace (ObjectMeta ep)) (Name (ObjectMeta ep)) :: after'
      ∧ ip = Address (Iface (Spec ep))
      ∧ NetworkType (Spec ep) ≠ "ipvlan".

(** In a trace, there is one fetch for each entry of the routine, each
    entry is matched by a deletion or by the log line of a failed fetch, and
    there are no more releases than deletions. *)
Definition accounted (t : list Event) : Prop :=
  length (fetches t) = length (invocations t)
  ∧ length (invocations t) = (length (deletions t) + length (fetch_failures t))%nat
  ∧ (length (releases t) ≤ length (deletions t))%nat.

(** In a trace, the records deleted and the addresses released are those
    of the endpoints in [targets]. *)
Definition only_targets (targets : list DanmEp) (t : list Event) : Prop :=
  (∀ k, k ∈ deletions t → ∃ ep, ep ∈ targets ∧ ep_key ep = k)
  ∧ (∀ netInfo ip, (netInfo, ip) ∈ releases t →
       ∃ ep, ep ∈ targets ∧ Address (Iface (Spec ep)) = ip
             ∧ NetworkType (Spec ep) ≠ "ipvlan").

(** The runs of the deletion routine for a batch of endpoints, one after
    the other, from a world [w]: the events they add and the world they
    leave.  Each endpoint has its own run, decided by the answer to its own
    fetch in the world the runs before it left: a failed fetch is logged and
    the batch goes on; after a fetched network the record is deleted, the
    address released first unless the endpoint is of the exempt type, and
    the batch goes on whatever the release and the deletion answered. *)
Inductive runs_from {W : Type} `{!Clients W} : W → list DanmEp → list Event → W → Prop :=
| runs_done w : runs_from w [] [] w
| runs_fetch_failed w ep eps e w1 t w' :
    DanmNets_Get (Namespace (ObjectMeta ep)) (NetworkID (Spec ep)) w = (Err e, w1) →
    runs_from w1 eps t w' →
    runs_from w (ep :: eps)
      (Enter_deleteInterface ep
       :: Call_DanmNets_Get (Namespace (ObjectMeta ep)) (NetworkID (Spec ep))
       :: Glog (Errorf_Cannot_fetch_net_info (NetworkID (Spec ep))) :: t) w'
| runs_exempt w ep eps netInfo w1 rd w2 t w' :
    DanmNets_Get (Namespace (ObjectMeta ep)) (NetworkID (Spec ep)) w = (Ok netInfo, w1) →
    NetworkType (Spec ep) = "ipvlan" →
    DanmEps_Delete (Namespace (ObjectMeta ep)) (Name (ObjectMeta ep)) w1 = (rd, w2) →
    runs_from w2 eps t w' →
    runs_from w (ep :: eps)
      (Enter_deleteInterface ep
       :: Call_DanmNets_Get (Namespace (ObjectMeta ep)) (NetworkID (Spec ep))
       :: Call_DanmEps_Delete (Namespace (ObjectMeta ep)) (Name (ObjectMeta ep)) :: t) w'
| runs_pooled w ep eps netInfo w1 rf w2 rd w3 t w' :
    DanmNets_Get (Namespace (ObjectMeta ep)) (NetworkID (Spec ep)) w = (Ok netInfo, w1) →
    NetworkType (Spec ep) ≠ "ipvlan" →
    ipam_Free netInfo (Address (Iface (Spec ep))) w1 = (rf, w2) →
    DanmEps_Delete (Namespace (ObjectMeta ep)) (Name (ObjectMeta ep)) w2 = (rd, w3) →
    runs_from w3 eps t w' →
    runs_from w (ep :: eps)
      (Enter_deleteInterface ep
       :: Call_DanmNets_Get (Namespace (ObjectMeta ep)) (NetworkID (Spec ep))
       :: Call_ipam_Free netInfo (Address (Iface (Spec ep)))
       :: Call_DanmEps_Delete (Namespace (ObjectMeta ep)) (Name (ObjectMeta ep)) :: t) w'.

(** The events of the run for one endpoint whose network was fetched. *)
Definition deleted_run (ep : DanmEp) (netInfo : DanmNet) : list Event :=
  [Enter_deleteInterface ep;
   Call_DanmNets_Get (Namespace (ObjectMeta ep)) (NetworkID (Spec ep))]
  ++ (if bool_decide (NetworkType (Spec ep) ≠ "ipvlan")
      then [Call_ipam_Free netInfo (Address (Iface (Spec ep)))]
      else [])
  ++ [Call_DanmEps_Delete (Namespace (ObjectMeta ep)) (Name (ObjectMeta ep))].

(** The events of the run for one endpoint whose fetch failed. *)
Definition failed_run (ep : DanmEp) : list Event :=
  [Enter_deleteInterface ep;
   Call_DanmNets_Get (Namespace (ObjectMeta ep)) (NetworkID (Spec ep));
   Glog (Errorf_Cannot_fetch_net_info (NetworkID (Spec ep)))].

(** A computation only adds to the trace, and what it adds satisfies
    [P]. *)
Definition adds {W A} (P : list Event → Prop) (m : M W A) : Prop :=
  ∀ s, ∃ added, trace (m s).2 = trace s ++ added ∧ P added.

(** The endpoints each loop of [cleanup] selects. *)
Definition dead_selection (E : list DanmEp) (dockerDeads : list APIContainers) : list DanmEp :=
  dead ← dockerDeads; filter (λ ep, CID (Spec ep) = ID dead) E.

Definition missing_selection (E : list DanmEp) (dockerAll : list APIContainers) : list DanmEp :=
  filter (λ ep, CID (Spec ep) ∉ ID <$> dockerAll) E.

(** * A reference cluster *)

Module Reference.

(** Modelled from the spec: the three collaborators of pkg/cleaner
    (registry client, allocator client, runtime client; their code is not
    in pkg/cleaner) as section 6 describes them.  The registry holds
    network definitions and endpoint records; reading a missing network
    definition and deleting a missing endpoint are errors (NotFound); the
    allocator takes an address of a network out of the set of reserved
    ones; the runtime lists its containers, all of them or by status.
    Each service is up or down; a call to a service that is down fails
    and changes nothing. *)
Record Cluster := mkCluster {
  hostname : result string;
  registry_up : bool;
  allocator_up : bool;
  runtime_up : bool;
  nets : gmap (string * string) DanmNet;
  eps : list DanmEp;
  reserved : gset (string * string * string);
  containers : list APIContainers
}.

Definition is_ep (ns name : string) (ep : DanmEp) : bool :=
  bool_decide (Namespace (ObjectMeta ep) = ns ∧ Name (ObjectMeta ep) = name).

Definition reservation (netInfo : DanmNet) (ip : string) : string * string * string :=
  (Namespace (NetObjectMeta netInfo), Name (NetObjectMeta netInfo), ip).

Definition ref_CidsByHost (host : string) (c : Cluster) : result (list DanmEp) * Cluster :=
  if registry_up c
  then (Ok (filter (λ ep, Host (Spec ep) = host) (eps c)), c)
  else (Err "registry unreachable", c).

Definition ref_FindByCid (cid : string) (c : Cluster) : result (list DanmEp) * Cluster :=
  if registry_up c
  then (Ok (filter (λ ep, CID (Spec ep) = cid) (eps c)), c)
  else (Err "registry unreachable", c).

Definition matches (opts : ListContainersOptions) (container : APIContainers) : bool :=
  (All opts || bool_decide (Status container = "running"))
  && match Filters opts !! "status" with
     | Some wanted => bool_decide (Status container ∈ wanted)
     | None => true
     end.

Definition ref_ListContainers (opts : ListContainersOptions) (c : Cluster)
  : result (list APIContainers) * Cluster :=
  if runtime_up c
  then (Ok (filter (λ container, matches opts container = true) (containers c)), c)
  else (Err "runtime unreachable", c).

Definition ref_AddEventListener (c : Cluster) : option error * Cluster :=
  if runtime_up c then (None, c) else (Some "runtime unreachable", c).

Definition ref_Get (ns name : string) (c : Cluster) : result DanmNet * Cluster :=
  if registry_up c
  then match nets c !! (ns, name) with
       | Some netInfo => (Ok netInfo, c)
       | None => (Err "not found", c)
       end
  else (Err "registry unreachable", c).

Definition ref_Free (netInfo : DanmNet) (ip : string) (c : Cluster) : result unit * Cluster :=
  if allocator_up c
  then (Ok tt,
        mkCluster (hostname c) (registry_up c) (allocator_up c) (runtime_up c)
                  (nets c) (eps c) (reserved c ∖ {[ reservation netInfo ip ]})
                  (containers c))
  else (Err "allocator unreachable", c).

Definition ref_Delete (ns name : string) (c : Cluster) : result unit * Cluster :=
  if registry_up c
  then if existsb (is_ep ns name) (eps c)
       then (Ok tt,
             mkCluster (hostname c) (registry_up c) (allocator_up c) (runtime_up c)
                       (nets c) (filter (λ ep, is_ep ns name ep = false) (eps c))
                       (reserved c) (containers c))
       else (Err "not found", c)
  else (Err "registry unreachable", c).

Global Instance clients : Clients Cluster := {|
  os_Hostname := λ c, (hostname c, c);
  danmep_CidsByHost := ref_CidsByHost;
  danmep_FindByCid := ref_FindByCid;
  docker_ListContainers := ref_ListContainers;
  docker_AddEventListener := ref_AddEventListener;
  DanmNets_Get := ref_Get;
  ipam_Free := ref_Free;
  DanmEps_Delete := ref_Delete
|}.

End Reference.

(** * Scenarios of section 8 *)

Module Scenario.
Import Reference.

Definition mk_ep (ns name net type host cid addr : string) : DanmEp :=
  {| ObjectMeta := {| Namespace := ns; Name := name |};
     Spec := {| NetworkID := net; NetworkType := type; Host := host; CID := cid;
                Iface := {| Address := addr |} |} |}.

Definition mk_net (ns name type : string) : DanmNet :=
  {| NetObjectMeta := {| Namespace := ns; Name := name |}; NetNetworkType := type |}.

Definition ep1 : DanmEp := mk_ep "x" "ep1" "net1" "other" "node1" "abc" "10.0.0.5".
Definition net1 : DanmNet := mk_net "x" "net1" "other".


(** An endpoint whose network definition is not in the registry. *)
Definition ep0 : DanmEp := mk_ep "x" "ep0" "net0" "other" "node1" "abc" "10.0.9.9".

(** An endpoint of a running container. *)
Definition ep2 : DanmEp := mk_ep "x" "ep2" "net1" "other" "node1" "def" "10.0.0.6".

(** An endpoint whose container the runtime no longer knows. *)
Definition ep3 : DanmEp := mk_ep "x" "ep3" "net1" "other" "node1" "ghi" "10.0.0.7".

Definition cluster (registry : list DanmEp) : Cluster :=
  {| hostname := Ok "node1";
     registry_up := true; allocator_up := true; runtime_up := true;
     nets := {[ ("x", "net1") := net1 ]};
     eps := registry;
     reserved := {[ ("x", "net1", "10.0.0.5"); ("x", "net1", "10.0.0.6");
                    ("x", "net1", "10.0.0.7") ]};
     containers := [ {| ID := "abc"; Status := "exited" |};
                     {| ID := "def"; Status := "running" |} ] |}.

(** The same cluster during an outage of the allocator or of the
    registry. *)
Definition without_allocator (c : Cluster) : Cluster :=
  mkCluster (hostname c) (registry_up c) false (runtime_up c)
            (nets c) (eps c) (reserved c) (containers c).

Definition without_registry (c : Cluster) : Cluster :=
  mkCluster (hostname c) false (allocator_up c) (runtime_up c)
            (nets c) (eps c) (reserved c) (containers c).

Definition start (c : Cluster) : State Cluster := mkState c [].

Definition sandbox_event (action cid : string) : APIEvents :=
  {| Action := action; Type_ := "container";
     Actor := {| ActorID := cid;
                 Attributes := {[ "io.kubernetes.docker.type" := "podsandbox" ]} |};
     EventID := cid |}.

End Scenario.

(** * A runtime that goes away *)

Module Flaky.
Import Reference.

(** The reference cluster behind a runtime that answers a number of
    listings and fails from then on: a fixture for the runs in which the
    second listing of the sweep fails after the first succeeded. *)
Record World := mkWorld {
  listings_left : nat;
  cluster_of : Cluster
}.

Definition lift {A} (op : Cluster → A * Cluster) (w : World) : A * World :=
  match op (cluster_of w) with
  | (a, c) => (a, mkWorld (listings_left w) c)
  end.

Definition flaky_ListContainers (opts : ListContainersOptions) (w : World)
  : result (list APIContainers) * World :=
  match listings_left w with
  | O => (Err "runtime unreachable", w)
  | S n =>
      match ref_ListContainers opts (cluster_of w) with
      | (r, c) => (r, mkWorld n c)
      end
  end.

Global Instance clients : Clients World := {|
  os_Hostname := lift (λ c, (hostname c, c));
  danmep_CidsByHost := λ host, lift (ref_CidsByHost host);
  danmep_FindByCid := λ cid, lift (ref_FindByCid cid);
  docker_ListContainers := flaky_ListContainers;
  docker_AddEventListener := lift ref_AddEventListener;
  DanmNets_Get := λ ns name, lift (ref_Get ns name);
  ipam_Free := λ netInfo ip, lift (ref_Free netInfo ip);
  DanmEps_Delete := λ ns name, lift (ref_Delete ns name)
|}.

End Flaky.

(** * Starting the process on the reference cluster *)

Module Boot.
Import Reference.

(** What the start of the process finds: the environment of the runtime
    client, the value of the flag [kubeconfig], whether a configuration can
    be built from it, and whether the registry client can be built. *)
Record Env := mkEnv {
  docker_env : option error;
  kubeconfig_flag : string;
  kubeconfig_config : result unit;
  clientset : option error
}.

Definition startup (env : Env) : Startup Cluster := {|
  rest_Config := unit;
  docker_NewClientFromEnv := λ c, (docker_env env, c);
  flag_Parse := λ c, (kubeconfig_flag env, c);
  clientcmd_BuildConfigFromFlags := λ _ _ c, (kubeconfig_config env, c);
  danmclientset_NewForConfig := λ _ c, (clientset env, c)
|}.

Definition in_cluster : Env :=
  {| docker_env := None; kubeconfig_flag := "";
     kubeconfig_config := Ok tt; clientset := None |}.

Definition bad_kubeconfig : Env :=
  {| docker_env := None; kubeconfig_flag := "/no/such/file";
     kubeconfig_config := Err "no such file"; clientset := None |}.

End Boot.

Import Reference Scenario.

(** * Facts about the trace readers *)

Lemma invocations_app t1 t2 : invocations (t1 ++ t2) = invocations t1 ++ invocations t2.
Proof. apply omap_app. Qed.

Lemma releases_app t1 t2 : releases (t1 ++ t2) = releases t1 ++ releases t2.
Proof. apply omap_app. Qed.

Lemma deletions_app t1 t2 : deletions (t1 ++ t2) = deletions t1 ++ deletions t2.
Proof. apply omap_app. Qed.

Lemma lookups_app t1 t2 : lookups (t1 ++ t2) = lookups t1 ++ lookups t2.
Proof. apply omap_app. Qed.

Lemma glogs_app t1 t2 : glogs (t1 ++ t2) = glogs t1 ++ glogs t2.
Proof. apply omap_app. Qed.

Lemma invocations_enter ep t : invocations (Enter_deleteInterface ep :: t) = ep :: invocations t.
Proof. done. Qed.

Lemma lookups_enter ep t : lookups (Enter_deleteInterface ep :: t) = lookups t.
Proof. done. Qed.

(** * The deletion routine *)

Section Deletion.
Context {W : Type} `{!Clients W}.

(** The three ways through [deleteInterface], by the outcome of the fetch
    and the endpoint's network type. *)
Lemma deleteInterface_fetch_failed ep s e w1 :
  DanmNets_Get (Namespace (ObjectMeta ep)) (NetworkID (Spec ep)) (world s) = (Err e, w1) →
  deleteInterface ep s =
    (Done tt,
     mkState w1 (trace s ++ [Enter_deleteInterface ep;
                             Call_DanmNets_Get (Namespace (ObjectMeta ep)) (NetworkID (Spec ep));
                             Glog (Errorf_Cannot_fetch_net_info (NetworkID (Spec ep)))])).
Proof.
  intros Hget.
  unfold deleteInterface, mbind, M_bind, glog, emit, call; simpl.
  rewrite Hget; simpl. by rewrite <- !app_assoc.
Qed.

Lemma deleteInterface_exempt ep s netInfo w1 :
  DanmNets_Get (Namespace (ObjectMeta ep)) (NetworkID (Spec ep)) (world s) = (Ok netInfo, w1) →
  NetworkType (Spec ep) = "ipvlan" →
  deleteInterface ep s =
    (Done tt,
     mkState (DanmEps_Delete (Namespace (ObjectMeta ep)) (Name (ObjectMeta ep)) w1).2
             (trace s ++ [Enter_deleteInterface ep;
                          Call_DanmNets_Get (Namespace (ObjectMeta ep)) (NetworkID (Spec ep));
                          Call_DanmEps_Delete (Namespace (ObjectMeta ep)) (Name (ObjectMeta ep))])).
Proof.
  intros Hget Hty.
  unfold deleteInterface, mbind, M_bind, mret, M_ret, emit, call; simpl.
  rewrite Hget; simpl.
  rewrite bool_decide_eq_false_2 by (intros Hne; by apply Hne).
  destruct (DanmEps_Delete _ _ w1) as [rd w3] eqn:Hdel; simpl.
  rewrite ?Hdel; simpl. by rewrite <- !app_assoc.
Qed.

Lemma deleteInterface_pooled ep s netInfo w1 :
  DanmNets_Get (Namespace (ObjectMeta ep)) (NetworkID (Spec ep)) (world s) = (Ok netInfo, w1) →
  NetworkType (Spec ep) ≠ "ipvlan" →
  deleteInterface ep s =
    (Done tt,
     mkState (DanmEps_Delete (Namespace (ObjectMeta ep)) (Name (ObjectMeta ep))
                (ipam_Free netInfo (Address (Iface (Spec ep))) w1).2).2
             (trace s ++ [Enter_deleteInterface ep;
                          Call_DanmNets_Get (Namespace (ObjectMeta ep)) (NetworkID (Spec ep));
                          Call_ipam_Free netInfo (Address (Iface (Spec ep)));
                          Call_DanmEps_Delete (Namespace (ObjectMeta ep)) (Name (ObjectMeta ep))])).
Proof.
  intros Hget Hty.
  unfold deleteInterface, mbind, M_bind, mret, M_ret, emit, call; simpl.
  rewrite Hget; simpl.
  rewrite bool_decide_eq_true_2 by done.
  destruct (ipam_Free _ _ w1) as [rf w2] eqn:Hfree; simpl.
  rewrite ?Hfree; simpl.
  destruct (DanmEps_Delete _ _ w2) as [rd w3] eqn:Hdel; simpl.
  rewrite ?Hdel; simpl. by rewrite <- !app_assoc.
Qed.

(** Whatever the collaborators answer, the routine returns to its caller,
    having added to the trace its own entry and then only calls of its
    own: no entry of the routine for another endpoint, no search. *)
Lemma deleteInterface_returns ep s :
  ∃ w' t', deleteInterface ep s = (Done tt, mkState w' (trace s ++ Enter_deleteInterface ep :: t'))
           ∧ invocations t' = [] ∧ lookups t' = [].
Proof.
  destruct (DanmNets_Get (Namespace (ObjectMeta ep)) (NetworkID (Spec ep)) (world s))
    as [[netInfo|e] w1] eqn:Hget.
  - destruct (decide (NetworkType (Spec ep) = "ipvlan")) as [Hty|Hty].
    + rewrite (deleteInterface_exempt _ _ _ _ Hget Hty). by eexists _, _.
    + rewrite (deleteInterface_pooled _ _ _ _ Hget Hty). by eexists _, _.
  - rewrite (deleteInterface_fetch_failed _ _ _ _ Hget). by eexists _, _.
Qed.

End Deletion.

(** * Loops over endpoints *)

Section Loops.
Context {W : Type} `{!Clients W}.

Lemma range_app {A} (l1 l2 : list A) (body : A → M W unit) s :
  (∀ x s0, (body x s0).1 = Done tt) →
  range (l1 ++ l2) body s = range l2 body (range l1 body s).2
  ∧ (range l1 body s).1 = Done tt.
Proof.
  intros Hbody. revert s. induction l1 as [|x l1 IH]; intros s; simpl.
  - done.
  - unfold mbind, M_bind. specialize (Hbody x s).
    destruct (body x s) as [[[]|msg] s1]; simpl in *; [|done].
    apply IH.
Qed.

Lemma guarded_returns selected ep s : (guarded selected ep s).1 = Done tt.
Proof.
  unfold guarded. destruct (selected ep); [|done].
  destruct (deleteInterface_returns ep s) as (w' & t' & -> & _). done.
Qed.

Lemma range_guarded_returns selected l s : (range l (guarded selected) s).1 = Done tt.
Proof.
  revert s. induction l as [|ep l IH]; intros s; simpl; [done|].
  unfold mbind, M_bind. pose proof (guarded_returns selected ep s) as Hg.
  destruct (guarded selected ep s) as [[[]|msg] s1]; simpl in *; [|done].
  apply IH.
Qed.

(** The routine is entered for the selected endpoints, in the order of the
    list, and the loop searches nothing. *)
Lemma range_guarded_invocations selected l s :
  invocations (trace (range l (guarded selected) s).2)
  = invocations (trace s) ++ filter (λ ep, selected ep = true) l
  ∧ lookups (trace (range l (guarded selected) s).2) = lookups (trace s).
Proof.
  revert s. induction l as [|ep l IH]; intros s; simpl.
  - by rewrite app_nil_r.
  - unfold mbind, M_bind, guarded at 1 3.
    destruct (selected ep) eqn:Hsel.
    + destruct (deleteInterface_returns ep s) as (w' & t' & -> & Hinv & Hlook).
      destruct (IH (mkState w' (trace s ++ Enter_deleteInterface ep :: t'))) as [-> ->].
      simpl. rewrite filter_cons_True by done.
      rewrite invocations_app, lookups_app, invocations_enter, lookups_enter.
      rewrite Hinv, Hlook. by rewrite <- app_assoc, app_nil_r.
    + simpl. destruct (IH s) as [-> ->].
      rewrite filter_cons_False; [done|]. by rewrite Hsel.
Qed.

(** A loop only adds to the trace. *)
Lemma range_guarded_extends selected l s :
  ∃ rest, trace (range l (guarded selected) s).2 = trace s ++ rest.
Proof.
  revert s. induction l as [|ep l IH]; intros s; simpl.
  - exists []. by rewrite app_nil_r.
  - unfold mbind, M_bind, guarded at 1.
    destruct (selected ep).
    + destruct (deleteInterface_returns ep s) as (w' & t' & -> & _).
      destruct (IH (mkState w' (trace s ++ Enter_deleteInterface ep :: t'))) as [rest ->].
      simpl. exists ((Enter_deleteInterface ep :: t') ++ rest). by rewrite app_assoc.
    + simpl. apply IH.
Qed.

End Loops.

(** * Properties of the deletion routine *)




(** C4 (failed fetch).  If the fetch of the network definition fails, the
    routine writes one log line and returns: the fetch is the only call it
    makes, so nothing is released, nothing is deleted, and the world is the
    one the failed fetch left. *)
Theorem C4_fetch_failure_skips_deletion {W} `{!Clients W} (ep : DanmEp) (s : State W) e w1 :
  DanmNets_Get (Namespace (ObjectMeta ep)) (NetworkID (Spec ep)) (world s) = (Err e, w1) →
  let s' := (deleteInterface ep s).2 in
  (deleteInterface ep s).1 = Done tt
  ∧ world s' = w1
  ∧ trace s' = trace s ++ [Enter_deleteInterface ep;
                           Call_DanmNets_Get (Namespace (ObjectMeta ep)) (NetworkID (Spec ep));
                           Glog (Errorf_Cannot_fetch_net_info (NetworkID (Spec ep)))]
  ∧ glogs (trace s') = glogs (trace s) ++ [Errorf_Cannot_fetch_net_info (NetworkID (Spec ep))]
  ∧ releases (trace s') = releases (trace s)
  ∧ deletions (trace s') = deletions (trace s).
Proof.
  intros Hget s'. subst s'.
  rewrite (deleteInterface_fetch_failed _ _ _ _ Hget); simpl.
  rewrite glogs_app, releases_app, deletions_app; simpl.
  by rewrite !app_nil_r.
Qed.

(** The endpoint's network definition is not in the registry: the registry
    is left as it was. *)
Lemma C4_witness :
  let s' := (deleteInterface ep0 (start (cluster [ep0; ep1]))).2 in
  world s' = cluster [ep0; ep1]
  ∧ glogs (trace s') = [Errorf_Cannot_fetch_net_info "net0"]
  ∧ releases (trace s') = []
  ∧ deletions (trace s') = [].
Proof.
  assert (DanmNets_Get "x" "net0" (cluster [ep0; ep1]) = (Err "not found", cluster [ep0; ep1]))
    as Hget by (vm_compute; reflexivity).
  destruct (C4_fetch_failure_skips_deletion ep0 (start (cluster [ep0; ep1])) _ _ Hget)
    as (_ & Hw & _ & Hg & Hr & Hd).
  repeat split; assumption.
Defined.

(** C5 (failed release).  After a successful fetch, for an endpoint that is
    not of the exempt type, the routine calls the address release and then
    the deletion of the record, whatever the release answered: the routine
    drops the outcome of the release, and writes no log line of its own
    for it. *)
Theorem C5_release_outcome_ignored {W} `{!Clients W}
    (ep : DanmEp) (s : State W) netInfo w1 (rf : result unit) w2 :
  let ns := Namespace (ObjectMeta ep) in
  DanmNets_Get ns (NetworkID (Spec ep)) (world s) = (Ok netInfo, w1) →
  NetworkType (Spec ep) ≠ "ipvlan" →
  ipam_Free netInfo (Address (Iface (Spec ep))) w1 = (rf, w2) →
  let s' := (deleteInterface ep s).2 in
  (deleteInterface ep s).1 = Done tt
  ∧ trace s' = trace s ++ [Enter_deleteInterface ep;
                           Call_DanmNets_Get ns (NetworkID (Spec ep));
                           Call_ipam_Free netInfo (Address (Iface (Spec ep)));
                           Call_DanmEps_Delete ns (Name (ObjectMeta ep))]
  ∧ world s' = (DanmEps_Delete ns (Name (ObjectMeta ep)) w2).2
  ∧ deletions (trace s') = deletions (trace s) ++ [(ns, Name (ObjectMeta ep))]
  ∧ glogs (trace s') = glogs (trace s).
Proof.
  intros ns Hget Hty Hfree s'. subst ns s'.
  rewrite (deleteInterface_pooled _ _ _ _ Hget Hty); simpl.
  rewrite Hfree, deletions_app, glogs_app; simpl.
  by rewrite app_nil_r.
Qed.

(** The allocator is down: the release fails, the record is deleted all the
    same. *)
Lemma C5_witness :
  let c := without_allocator (cluster [ep1]) in
  let s' := (deleteInterface ep1 (start c)).2 in
  ipam_Free net1 "10.0.0.5" c = (Err "allocator unreachable", c)
  ∧ deletions (trace s') = [("x", "ep1")]
  ∧ eps (world s') = [].
Proof.
  intros c s'.
  assert (DanmNets_Get "x" "net1" c = (Ok net1, c)) as Hget by (vm_compute; reflexivity).
  assert (NetworkType (Spec ep1) ≠ "ipvlan") as Hty by (vm_compute; congruence).
  assert (ipam_Free net1 "10.0.0.5" c = (Err "allocator unreachable", c)) as Hfree
    by (vm_compute; reflexivity).
  destruct (C5_release_outcome_ignored ep1 (start c) net1 c _ c Hget Hty Hfree)
    as (_ & _ & Hw & Hd & _).
  split; [exact Hfree|]. split; [exact Hd|].
  subst s'. rewrite Hw. vm_compute. reflexivity.
Defined.

(** The claim as the spec words it has the failed release logged.  Here the
    fetch succeeds, the endpoint is not exempt, the release fails, and the
    trace of the routine holds no log line. *)
Lemma C5_counterexample :
  let c := without_allocator (cluster [ep1]) in
  DanmNets_Get "x" "net1" c = (Ok net1, c)
  ∧ NetworkType (Spec ep1) ≠ "ipvlan"
  ∧ ipam_Free net1 "10.0.0.5" c = (Err "allocator unreachable", c)
  ∧ ¬ ∃ entry, Glog entry ∈ trace (deleteInterface ep1 (start c)).2.
Proof.
  intros c. split; [vm_compute; reflexivity|].
  split; [vm_compute; congruence|].
  split; [vm_compute; reflexivity|].
  intros [entry Hin]. vm_compute in Hin.
  repeat (apply elem_of_cons in Hin as [Hin|Hin]; [discriminate Hin|]).
  by apply elem_of_nil in Hin.
Qed.

(** * The deletion routine on the reference cluster *)

Section OnReference.

Implicit Types (c : Cluster) (ep : DanmEp).

Lemma ref_Get_world ns name c : (ref_Get ns name c).2 = c.
Proof. unfold ref_Get. by repeat case_match. Qed.

Lemma ref_Get_Ok ns name c netInfo :
  registry_up c = true → nets c !! (ns, name) = Some netInfo →
  ref_Get ns name c = (Ok netInfo, c).
Proof. intros Hup Hnet. unfold ref_Get. by rewrite Hup, Hnet. Qed.

Lemma existsb_is_ep_filter ns name (l : list DanmEp) :
  existsb (is_ep ns name) (filter (λ ep, is_ep ns name ep = false) l) = false.
Proof.
  induction l as [|ep l IH]; [done|].
  destruct (is_ep ns name ep) eqn:Hep.
  - rewrite filter_cons_False; [done|]. by rewrite Hep.
  - rewrite filter_cons_True by done. simpl. by rewrite Hep.
Qed.

Lemma existsb_is_ep_false ns name (l : list DanmEp) ep' :
  existsb (is_ep ns name) l = false → ep' ∈ l →
  ¬ (Namespace (ObjectMeta ep') = ns ∧ Name (ObjectMeta ep') = name).
Proof.
  intros Hex Hin Hep.
  assert (existsb (is_ep ns name) l = true) as Htrue; [|congruence].
  apply existsb_exists. exists ep'. split; [by apply list_elem_of_In|].
  unfold is_ep. by apply bool_decide_eq_true_2.
Qed.

(** The endpoint records the reference registry holds after a call of
    delete: none of that namespace and name. *)
Lemma ref_Delete_absent ns name c ep' :
  registry_up c = true →
  ep' ∈ eps (ref_Delete ns name c).2 →
  ¬ (Namespace (ObjectMeta ep') = ns ∧ Name (ObjectMeta ep') = name).
Proof.
  unfold ref_Delete. intros ->.
  destruct (existsb (is_ep ns name) (eps c)) eqn:Hex; simpl.
  - apply existsb_is_ep_false, existsb_is_ep_filter.
  - by apply existsb_is_ep_false.
Qed.

(** Deleting and releasing a second time change nothing. *)
Lemma ref_Delete_twice ns name c :
  (ref_Delete ns name (ref_Delete ns name c).2).2 = (ref_Delete ns name c).2.
Proof.
  destruct c as [h [] al ru n registry r cs]; unfold ref_Delete; simpl; [|done].
  destruct (existsb (is_ep ns name) registry) eqn:Hex; simpl.
  - by rewrite existsb_is_ep_filter.
  - by rewrite Hex.
Qed.

Lemma ref_Free_Delete ns name netInfo ip c :
  (ref_Free netInfo ip (ref_Delete ns name c).2).2
  = (ref_Delete ns name (ref_Free netInfo ip c).2).2.
Proof.
  destruct c as [h [] [] ru n registry r cs]; unfold ref_Free, ref_Delete; simpl;
    try done; by destruct (existsb (is_ep ns name) registry).
Qed.

Lemma ref_Free_twice netInfo ip c :
  (ref_Free netInfo ip (ref_Free netInfo ip c).2).2 = (ref_Free netInfo ip c).2.
Proof.
  destruct c as [h up [] ru n registry r cs]; unfold ref_Free; simpl; [|done].
  f_equal. apply set_eq. intros x. rewrite !elem_of_difference. tauto.
Qed.

Lemma ref_Free_keeps netInfo ip c :
  registry_up (ref_Free netInfo ip c).2 = registry_up c
  ∧ nets (ref_Free netInfo ip c).2 = nets c.
Proof. unfold ref_Free. by destruct (allocator_up c). Qed.

Lemma ref_Delete_keeps ns name c :
  registry_up (ref_Delete ns name c).2 = registry_up c
  ∧ nets (ref_Delete ns name c).2 = nets c.
Proof. unfold ref_Delete. by repeat case_match. Qed.

Lemma ref_Get_inv ns name c netInfo c' :
  ref_Get ns name c = (Ok netInfo, c') →
  registry_up c = true ∧ nets c !! (ns, name) = Some netInfo ∧ c' = c.
Proof.
  unfold ref_Get. destruct (registry_up c); [|done].
  destruct (nets c !! (ns, name)); [|done]. by intros [= -> ->].
Qed.

Lemma ref_Get_after ns name c c' :
  registry_up c' = registry_up c → nets c' = nets c →
  (ref_Get ns name c').1 = (ref_Get ns name c).1.
Proof. unfold ref_Get. intros -> ->. by repeat case_match. Qed.

End OnReference.

(** C1 (deleting twice), as the code has it.  On the reference cluster,
    running the deletion routine a second time for the same endpoint leaves
    the registry and the pool as the first run left them; when the network
    definition can be fetched the endpoint record is absent afterwards; and
    each of the two runs calls the address release for an endpoint that is
    not exempt, so the address is released twice, not at most once. *)
Theorem C1_deletion_twice (c : Cluster) (ep : DanmEp) (t : list Event) :
  let ns := Namespace (ObjectMeta ep) in
  let once := (deleteInterface ep (mkState c t)).2 in
  let twice := (deleteInterface ep once).2 in
  world twice = world once
  ∧ ∀ netInfo,
      registry_up c = true → nets c !! (ns, NetworkID (Spec ep)) = Some netInfo →
      (∀ ep', ep' ∈ eps (world twice) →
         ¬ (Namespace (ObjectMeta ep') = ns ∧ Name (ObjectMeta ep') = Name (ObjectMeta ep)))
      ∧ (NetworkType (Spec ep) = "ipvlan" → releases (trace twice) = releases t)
      ∧ (NetworkType (Spec ep) ≠ "ipvlan" →
         releases (trace once) = releases t ++ [(netInfo, Address (Iface (Spec ep)))]
         ∧ releases (trace twice)
           = releases t ++ [(netInfo, Address (Iface (Spec ep)));
                            (netInfo, Address (Iface (Spec ep)))]).
Proof.
  intros ns once twice. subst ns once twice.
  set (ns := Namespace (ObjectMeta ep)). set (id := NetworkID (Spec ep)).
  destruct (ref_Get ns id c) as [[netInfo|e] c0] eqn:Hget.
  - (* the fetch succeeds *)
    destruct (ref_Get_inv _ _ _ _ _ Hget) as (Hup & Hnet & ->).
    assert (∀ t0, DanmNets_Get ns id (world (mkState c t0)) = (Ok netInfo, c)) as Hget0
      by done.
    clear Hget. rename Hget0 into Hget.
    destruct (decide (NetworkType (Spec ep) = "ipvlan")) as [Hty|Hty].
    + (* exempt *)
      rewrite (deleteInterface_exempt ep (mkState c t) netInfo c (Hget t) Hty).
      cbn [snd].
      set (c1 := (DanmEps_Delete ns (Name (ObjectMeta ep)) c).2).
      assert (∀ t0, DanmNets_Get ns id (world (mkState c1 t0)) = (Ok netInfo, c1)) as Hget1.
      { intros t0. destruct (ref_Delete_keeps ns (Name (ObjectMeta ep)) c) as [Hup1 Hnet1].
        apply ref_Get_Ok; unfold c1; simpl; congruence. }
      rewrite (deleteInterface_exempt ep (mkState c1 _) netInfo c1 (Hget1 _) Hty).
      simpl. split; [apply ref_Delete_twice|].
      intros netInfo' _ Hnet'. split; [|split].
      * intros ep'. unfold c1. simpl. rewrite ref_Delete_twice.
        by apply ref_Delete_absent.
      * intros _. rewrite !releases_app. simpl. by rewrite !app_nil_r.
      * done.
    + (* the address comes from the pool *)
      rewrite (deleteInterface_pooled ep (mkState c t) netInfo c (Hget t) Hty).
      cbn [snd].
      set (ip := Address (Iface (Spec ep))).
      set (c1 := (DanmEps_Delete ns (Name (ObjectMeta ep)) (ipam_Free netInfo ip c).2).2).
      assert (∀ t0, DanmNets_Get ns id (world (mkState c1 t0)) = (Ok netInfo, c1)) as Hget1.
      { intros t0. destruct (ref_Free_keeps netInfo ip c) as [Hup0 Hnet0].
        destruct (ref_Delete_keeps ns (Name (ObjectMeta ep)) (ref_Free netInfo ip c).2)
          as [Hup1 Hnet1].
        apply ref_Get_Ok; unfold c1; simpl; congruence. }
      rewrite (deleteInterface_pooled ep (mkState c1 _) netInfo c1 (Hget1 _) Hty).
      simpl. fold ip.
      assert ((ref_Delete ns (Name (ObjectMeta ep)) (ref_Free netInfo ip c1).2).2 = c1) as Hc1.
      { unfold c1; simpl.
        by rewrite ref_Free_Delete, ref_Free_twice, ref_Delete_twice. }
      split; [exact Hc1|].
      intros netInfo' _ Hnet'. assert (netInfo' = netInfo) as -> by congruence.
      split; [|split].
      * intros ep'. unfold ns in Hc1. rewrite Hc1. unfold c1. simpl.
        apply ref_Delete_absent. by destruct (ref_Free_keeps netInfo ip c) as [-> _].
      * done.
      * intros _. rewrite !releases_app. simpl. by rewrite <- app_assoc.
  - (* the fetch fails *)
    assert (c0 = c) as -> by (by rewrite <- (ref_Get_world ns id c), Hget).
    assert (∀ t0, DanmNets_Get ns id (world (mkState c t0)) = (Err e, c)) as Hget' by done.
    rewrite (deleteInterface_fetch_failed ep (mkState c t) e c (Hget' _)).
    cbn [snd].
    rewrite (deleteInterface_fetch_failed ep (mkState c _) e c (Hget' _)).
    simpl. split; [done|].
    intros netInfo Hup Hnet. by rewrite (ref_Get_Ok _ _ _ _ Hup Hnet) in Hget.
Qed.

(** Scenario 1, with the routine run twice for [ep1]: the record is gone,
    the registry and the pool are as after one run, and the release was
    called twice. *)
Lemma C1_witness :
  let once := (deleteInterface ep1 (start (cluster [ep1; ep2]))).2 in
  let twice := (deleteInterface ep1 once).2 in
  world twice = world once
  ∧ eps (world twice) = [ep2]
  ∧ releases (trace twice) = [(net1, "10.0.0.5"); (net1, "10.0.0.5")].
Proof.
  intros once twice.
  destruct (C1_deletion_twice (cluster [ep1; ep2]) ep1 []) as [Hworld Hfetched].
  destruct (Hfetched net1) as (_ & _ & Hreleases).
  - reflexivity.
  - vm_compute. reflexivity.
  - split; [exact Hworld|]. split; [vm_compute; reflexivity|].
    apply Hreleases. vm_compute. congruence.
Defined.

(** The claim as the spec words it has the address released at most once.
    In scenario 1, two runs of the routine for [ep1] call the release
    twice. *)
Lemma C1_counterexample :
  let once := (deleteInterface ep1 (start (cluster [ep1]))).2 in
  let twice := (deleteInterface ep1 once).2 in
  ¬ (world twice = world once
     ∧ (ep1 ∉ eps (world twice))
     ∧ (length (releases (trace twice)) ≤ 1)%nat).
Proof.
  intros once twice (_ & _ & Hreleases).
  assert (length (releases (trace twice)) = 2%nat) as Htwo by (vm_compute; reflexivity).
  lia.
Qed.

(** * The startup sweep *)

Lemma contains_spec (x : list string) (y : string) : contains x y = true ↔ y ∈ x.
Proof.
  induction x as [|z x IH]; simpl.
  - split; [done|]. intros H. by apply elem_of_nil in H.
  - rewrite elem_of_cons. case_bool_decide as Hz.
    + split; [|done]. intros _. by left.
    + rewrite IH. split; [by right|]. intros [->|H]; done.
Qed.

Lemma collect_cids_spec (dockerAll : list APIContainers) :
  collect_cids dockerAll = ID <$> dockerAll.
Proof.
  unfold collect_cids.
  assert (∀ acc, foldl (λ cids container, cids ++ [ID container]) acc dockerAll
                 = acc ++ (ID <$> dockerAll)) as Hgen.
  { induction dockerAll as [|container l IH]; intros acc; simpl.
    - by rewrite app_nil_r.
    - rewrite IH. by rewrite <- app_assoc. }
  apply Hgen.
Qed.

Section Sweep.
Context {W : Type} `{!Clients W}.

Lemma cleanup_dead_run (E : list DanmEp) (dockerDeads : list APIContainers) (s : State W) :
  (cleanup_dead E dockerDeads s).1 = Done tt
  ∧ invocations (trace (cleanup_dead E dockerDeads s).2)
    = invocations (trace s) ++ dead_selection E dockerDeads.
Proof.
  unfold cleanup_dead, dead_selection.
  revert s. induction dockerDeads as [|dead deads IH]; intros s; simpl.
  - by rewrite app_nil_r.
  - unfold mbind at 1 2, M_bind.
    set (selected := λ ep : DanmEp, bool_decide (CID (Spec ep) = ID dead)).
    change (range E _ s) with (range E (guarded selected) s).
    pose proof (range_guarded_returns selected E s) as Hdone.
    destruct (range_guarded_invocations selected E s) as [Hinv _].
    destruct (range E (guarded selected) s) as [[[]|msg] s1]; simpl in *; [|done].
    destruct (IH s1) as [-> ->]. split; [done|].
    rewrite Hinv, <- app_assoc. do 2 f_equal.
    apply list_filter_iff. intros ep. unfold selected.
    by rewrite bool_decide_eq_true.
Qed.

Lemma cleanup_missing_run (E : list DanmEp) (dockerAll : list APIContainers) (s : State W) :
  (cleanup_missing E (collect_cids dockerAll) s).1 = Done tt
  ∧ invocations (trace (cleanup_missing E (collect_cids dockerAll) s).2)
    = invocations (trace s) ++ missing_selection E dockerAll.
Proof.
  unfold cleanup_missing, missing_selection.
  set (selected := λ ep : DanmEp, negb (contains (collect_cids dockerAll) (CID (Spec ep)))).
  change (range E _ s) with (range E (guarded selected) s).
  split; [apply range_guarded_returns|].
  destruct (range_guarded_invocations selected E s) as [-> _]. f_equal.
  apply list_filter_iff. intros ep. unfold selected.
  rewrite negb_true_iff, <- not_true_iff_false, contains_spec.
  by rewrite collect_cids_spec.
Qed.

(** [cleanup] once its three listings succeeded: the two loops, run on the
    state the listings left. *)
Lemma cleanup_listed (s : State W) host w1 E w2 dockerDeads w3 dockerAll w4 :
  os_Hostname (world s) = (Ok host, w1) →
  danmep_CidsByHost host w1 = (Ok E, w2) →
  docker_ListContainers optDead w2 = (Ok dockerDeads, w3) →
  docker_ListContainers optAll w3 = (Ok dockerAll, w4) →
  cleanup s =
    cleanup_missing E (collect_cids dockerAll)
      (cleanup_dead E dockerDeads
         (mkState w4 (trace s ++ [Call_Hostname; Call_CidsByHost host;
                                  Call_ListContainers optDead;
                                  Call_ListContainers optAll]))).2.
Proof.
  intros Hhost Heps Hdeads Hall.
  unfold cleanup, getHostname, mbind, M_bind, mret, M_ret, call; simpl.
  rewrite Hhost; simpl. rewrite Heps; simpl. rewrite Hdeads; simpl. rewrite Hall; simpl.
  rewrite <- !app_assoc; simpl.
  match goal with |- context [cleanup_dead E dockerDeads ?s4] =>
    pose proof (proj1 (cleanup_dead_run E dockerDeads s4)) as Hdone;
    destruct (cleanup_dead E dockerDeads s4) as [[[]|msg] s5] end; simpl in *; done.
Qed.

End Sweep.

Lemma elem_of_dead_selection E dockerDeads e :
  e ∈ dead_selection E dockerDeads ↔ e ∈ E ∧ CID (Spec e) ∈ ID <$> dockerDeads.
Proof.
  unfold dead_selection. rewrite list_elem_of_bind. split.
  - intros (dead & Hin & Hdead). apply list_elem_of_filter in Hin as [Hcid HE].
    split; [done|]. rewrite Hcid. by apply list_elem_of_fmap_2.
  - intros [HE Hcid]. apply list_elem_of_fmap in Hcid as (dead & Hcid & Hdead).
    exists dead. split; [|done]. by apply list_elem_of_filter.
Qed.

Lemma elem_of_missing_selection E dockerAll e :
  e ∈ missing_selection E dockerAll ↔ e ∈ E ∧ CID (Spec e) ∉ ID <$> dockerAll.
Proof. unfold missing_selection. rewrite list_elem_of_filter. tauto. Qed.

(** C2 (orphan detection).  When the three listings succeed, with [E] the
    endpoints listed for the host, [dockerDeads] the exited containers and
    [dockerAll] all the containers, the sweep enters the deletion routine
    exactly for the endpoints of [E] whose CID is the ID of an exited
    container or is the ID of no container at all; so never for an endpoint
    whose CID is the ID of a container that is not exited. *)
Theorem C2_orphan_detection {W} `{!Clients W} (s : State W)
    host w1 E w2 dockerDeads w3 dockerAll w4 :
  os_Hostname (world s) = (Ok host, w1) →
  danmep_CidsByHost host w1 = (Ok E, w2) →
  docker_ListContainers optDead w2 = (Ok dockerDeads, w3) →
  docker_ListContainers optAll w3 = (Ok dockerAll, w4) →
  ∃ swept,
    invocations (trace (cleanup s).2) = invocations (trace s) ++ swept
    ∧ (∀ e, e ∈ swept ↔
            e ∈ E ∧ (CID (Spec e) ∈ ID <$> dockerDeads ∨ CID (Spec e) ∉ ID <$> dockerAll))
    ∧ (∀ e, CID (Spec e) ∈ ID <$> dockerAll → CID (Spec e) ∉ ID <$> dockerDeads →
            e ∉ swept).
Proof.
  intros Hhost Heps Hdeads Hall.
  exists (dead_selection E dockerDeads ++ missing_selection E dockerAll).
  assert (∀ e, e ∈ dead_selection E dockerDeads ++ missing_selection E dockerAll ↔
               e ∈ E ∧ (CID (Spec e) ∈ ID <$> dockerDeads ∨ CID (Spec e) ∉ ID <$> dockerAll))
    as Hswept.
  { intros e. rewrite elem_of_app, elem_of_dead_selection, elem_of_missing_selection. tauto. }
  split; [|split].
  - rewrite (cleanup_listed s _ _ _ _ _ _ _ _ Hhost Heps Hdeads Hall).
    rewrite (proj2 (cleanup_missing_run _ _ _)), (proj2 (cleanup_dead_run _ _ _)); simpl.
    rewrite invocations_app; simpl. by rewrite app_nil_r, <- app_assoc.
  - exact Hswept.
  - intros e Hall' Hdead Hin. apply Hswept in Hin as [_ [?|?]]; done.
Qed.

(** The sweep of scenario 1, with three more endpoints: one whose network
    definition is missing, one of a running container, one of a container
    the runtime does not know. *)
Lemma C2_witness :
  let s := start (cluster [ep1; ep0; ep2; ep3]) in
  let E := [ep1; ep0; ep2; ep3] in
  let dockerDeads := [ {| ID := "abc"; Status := "exited" |} ] in
  let dockerAll := [ {| ID := "abc"; Status := "exited" |};
                     {| ID := "def"; Status := "running" |} ] in
  ∃ swept,
    invocations (trace (cleanup s).2) = invocations (trace s) ++ swept
    ∧ (∀ e, e ∈ swept ↔
            e ∈ E ∧ (CID (Spec e) ∈ ID <$> dockerDeads ∨ CID (Spec e) ∉ ID <$> dockerAll))
    ∧ (∀ e, CID (Spec e) ∈ ID <$> dockerAll → CID (Spec e) ∉ ID <$> dockerDeads →
            e ∉ swept).
Proof.
  intros s E dockerDeads dockerAll.
  apply (C2_orphan_detection s "node1" (world s) E (world s) dockerDeads (world s)
           dockerAll (world s)); vm_compute; reflexivity.
Defined.

(** Counting occurrences in a filtered list. *)
Lemma count_occ_filter {A} (dec : ∀ x y : A, {x = y} + {x ≠ y})
    (P : A → Prop) `{!∀ x, Decision (P x)} (l : list A) (x : A) :
  count_occ dec (filter P l) x = if decide (P x) then count_occ dec l x else 0%nat.
Proof.
  induction l as [|y l IH]; simpl.
  - by case_decide.
  - destruct (decide (P y)) as [Hy|Hy].
    + rewrite filter_cons_True by done. simpl. rewrite IH.
      destruct (dec y x) as [->|Hne]; by repeat case_decide.
    + rewrite filter_cons_False by done. rewrite IH.
      destruct (dec y x) as [->|Hne]; by repeat case_decide.
Qed.

Lemma count_occ_dead_selection E (dockerDeads : list APIContainers) e :
  NoDup (ID <$> dockerDeads) →
  (count_occ DanmEp_eq_dec (dead_selection E dockerDeads) e ≤ count_occ DanmEp_eq_dec E e)%nat
  ∧ (CID (Spec e) ∉ ID <$> dockerDeads →
     count_occ DanmEp_eq_dec (dead_selection E dockerDeads) e = 0%nat).
Proof.
  unfold dead_selection.
  induction dockerDeads as [|dead deads IH]; intros Hnodup.
  - simpl. split; [lia|done].
  - rewrite fmap_cons in Hnodup. apply NoDup_cons in Hnodup as [Hfresh Hnodup].
    destruct (IH Hnodup) as [IHle IHzero].
    rewrite bind_cons, count_occ_app, count_occ_filter, fmap_cons.
    split.
    + case_decide as Hcid; [|lia].
      rewrite IHzero; [lia|]. by rewrite Hcid.
    + intros Hnotin. apply not_elem_of_cons in Hnotin as [Hne Hnotin].
      rewrite decide_False by done. by rewrite IHzero.
Qed.

(** C10 (one visit per endpoint).  When the three listings succeed, every
    exited container is among all the containers, and the exited containers
    are listed with distinct IDs, no endpoint the first loop of the sweep
    runs the deletion routine for is one the second loop runs it for, and
    the sweep runs it for an endpoint no more often than the endpoint is
    listed in [E] (once, for a listing without repetition). *)
Theorem C10_single_visit {W} `{!Clients W} (s : State W)
    host w1 E w2 dockerDeads w3 dockerAll w4 :
  os_Hostname (world s) = (Ok host, w1) →
  danmep_CidsByHost host w1 = (Ok E, w2) →
  docker_ListContainers optDead w2 = (Ok dockerDeads, w3) →
  docker_ListContainers optAll w3 = (Ok dockerAll, w4) →
  (∀ dead, dead ∈ dockerDeads → ID dead ∈ ID <$> dockerAll) →
  NoDup (ID <$> dockerDeads) →
  let listed := mkState w4 (trace s ++ [Call_Hostname; Call_CidsByHost host;
                                        Call_ListContainers optDead;
                                        Call_ListContainers optAll]) in
  let after_dead := (cleanup_dead E dockerDeads listed).2 in
  let after_missing := (cleanup_missing E (collect_cids dockerAll) after_dead).2 in
  (cleanup s).2 = after_missing
  ∧ ∃ pass1 pass2,
      invocations (trace after_dead) = invocations (trace s) ++ pass1
      ∧ invocations (trace after_missing) = invocations (trace after_dead) ++ pass2
      ∧ (∀ e, e ∈ pass1 → e ∉ pass2)
      ∧ (∀ e, count_occ DanmEp_eq_dec (pass1 ++ pass2) e ≤ count_occ DanmEp_eq_dec E e)%nat
      ∧ (NoDup E → NoDup (pass1 ++ pass2)).
Proof.
  intros Hhost Heps Hdeads Hall Hsub Hnodup listed after_dead after_missing.
  subst after_missing after_dead.
  split; [by rewrite (cleanup_listed s _ _ _ _ _ _ _ _ Hhost Heps Hdeads Hall)|].
  exists (dead_selection E dockerDeads), (missing_selection E dockerAll).
  assert (∀ e, e ∈ dead_selection E dockerDeads → e ∉ missing_selection E dockerAll)
    as Hdisjoint.
  { intros e [_ Hdead]%elem_of_dead_selection [_ Hmissing]%elem_of_missing_selection.
    apply Hmissing. apply list_elem_of_fmap in Hdead as (dead & -> & Hin). by apply Hsub. }
  assert (∀ e, (count_occ DanmEp_eq_dec (dead_selection E dockerDeads ++ missing_selection E dockerAll) e
                ≤ count_occ DanmEp_eq_dec E e)%nat) as Hcount.
  { intros e. rewrite count_occ_app.
    destruct (count_occ_dead_selection E dockerDeads e Hnodup) as [Hle Hzero].
    unfold missing_selection at 1. rewrite count_occ_filter.
    case_decide as Hmissing; [|lia].
    rewrite Hzero; [lia|].
    intros Hdead. apply Hmissing.
    apply list_elem_of_fmap in Hdead as (dead & -> & Hin). by apply Hsub. }
  split; [|split; [|split; [|split]]].
  - rewrite (proj2 (cleanup_dead_run _ _ _)). subst listed; simpl.
    rewrite invocations_app; simpl. by rewrite app_nil_r.
  - by rewrite (proj2 (cleanup_missing_run _ _ _)).
  - exact Hdisjoint.
  - exact Hcount.
  - intros HE. apply NoDup_ListNoDup, (NoDup_count_occ DanmEp_eq_dec). intros e.
    etrans; [apply Hcount|].
    by apply (NoDup_count_occ DanmEp_eq_dec), NoDup_ListNoDup.
Qed.

Lemma C10_witness :
  let s := start (cluster [ep1; ep0; ep2; ep3]) in
  let E := [ep1; ep0; ep2; ep3] in
  let dockerDeads := [ {| ID := "abc"; Status := "exited" |} ] in
  let dockerAll := [ {| ID := "abc"; Status := "exited" |};
                     {| ID := "def"; Status := "running" |} ] in
  let listed := mkState (world s) [Call_Hostname; Call_CidsByHost "node1";
                                   Call_ListContainers optDead;
                                   Call_ListContainers optAll] in
  let after_dead := (cleanup_dead E dockerDeads listed).2 in
  let after_missing := (cleanup_missing E (collect_cids dockerAll) after_dead).2 in
  (cleanup s).2 = after_missing
  ∧ ∃ pass1 pass2,
      invocations (trace after_dead) = invocations (trace s) ++ pass1
      ∧ invocations (trace after_missing) = invocations (trace after_dead) ++ pass2
      ∧ (∀ e, e ∈ pass1 → e ∉ pass2)
      ∧ (∀ e, count_occ DanmEp_eq_dec (pass1 ++ pass2) e ≤ count_occ DanmEp_eq_dec E e)%nat
      ∧ (NoDup E → NoDup (pass1 ++ pass2)).
Proof.
  intros s E dockerDeads dockerAll.
  apply (C10_single_visit s "node1" (world s) E (world s) dockerDeads (world s)
           dockerAll (world s)); try (vm_compute; reflexivity).
  - intros dead Hin. apply list_elem_of_singleton in Hin as ->.
    apply elem_of_cons. by left.
  - apply NoDup_singleton.
Defined.

(** * The event watcher *)

Section Events.
Context {W : Type} `{!Clients W}.

Lemma death_action_spec (action : string) :
  bool_decide (action = "kill") || bool_decide (action = "die")
  || bool_decide (action = "stop") || bool_decide (action = "destroy") = true
  ↔ action ∈ ["kill"; "die"; "stop"; "destroy"].
Proof.
  rewrite !orb_true_iff, !bool_decide_eq_true, !elem_of_cons, elem_of_nil. tauto.
Qed.

Lemma sandbox_marker (msg : APIEvents) :
  map_index (Attributes (Actor msg)) "io.kubernetes.docker.type" = "podsandbox"
  ↔ Attributes (Actor msg) !! "io.kubernetes.docker.type" = Some "podsandbox".
Proof.
  unfold map_index.
  destruct (Attributes (Actor msg) !! "io.kubernetes.docker.type") as [v|]; simpl.
  - split; congruence.
  - split; discriminate.
Qed.

(** What [Watch_receive] does with a message, by the message's category,
    marker and action. *)
Lemma Watch_receive_discards (msg : APIEvents) (s : State W) :
  Type_ msg ≠ "container"
  ∨ Attributes (Actor msg) !! "io.kubernetes.docker.type" ≠ Some "podsandbox"
  ∨ Action msg ∉ ["kill"; "die"; "stop"; "destroy"] →
  Watch_receive msg s = (Done tt, s).
Proof.
  intros Hskip. unfold Watch_receive, ProcessEvent.
  case_bool_decide as Hty; [|done].
  case_bool_decide as Hmark; [done|].
  destruct (bool_decide (Action msg = "kill") || bool_decide (Action msg = "die")
            || bool_decide (Action msg = "stop") || bool_decide (Action msg = "destroy"))
    eqn:Hact; [|done].
  apply death_action_spec in Hact.
  destruct Hskip as [?|[Hno|?]]; [done| |done].
  exfalso. apply Hno, sandbox_marker.
  by destruct (decide (map_index (Attributes (Actor msg)) "io.kubernetes.docker.type"
                       = "podsandbox")).
Qed.

Lemma Watch_receive_lookup (msg : APIEvents) (s : State W) :
  Type_ msg = "container" →
  Attributes (Actor msg) !! "io.kubernetes.docker.type" = Some "podsandbox" →
  Action msg ∈ ["kill"; "die"; "stop"; "destroy"] →
  Watch_receive msg s =
    match danmep_FindByCid (EventID msg) (world s) with
    | (Err _, w1) => (Done tt, mkState w1 (trace s ++ [Call_FindByCid (EventID msg)]))
    | (Ok eps, w1) =>
        range eps (guarded (λ _, true))
          (mkState w1 (trace s ++ [Call_FindByCid (EventID msg); Glog (Infof_eps eps)]))
    end.
Proof.
  intros Hty Hmark Hact. unfold Watch_receive, ProcessEvent.
  rewrite bool_decide_eq_true_2 by done.
  rewrite bool_decide_eq_false_2 by (intros Hne; by apply Hne, sandbox_marker).
  apply death_action_spec in Hact. rewrite Hact.
  unfold mbind, M_bind, call, glog, emit; simpl.
  destruct (danmep_FindByCid (EventID msg) (world s)) as [[eps|e] w1]; simpl; [|done].
  by rewrite <- app_assoc.
Qed.

Lemma filter_always (l : list DanmEp) : filter (λ _ : DanmEp, true = true) l = l.
Proof.
  induction l as [|ep l IH]; [done|].
  rewrite filter_cons_True by done. by rewrite IH.
Qed.

Lemma Watch_receive_returns (msg : APIEvents) (s : State W) :
  (Watch_receive msg s).1 = Done tt.
Proof.
  destruct (decide (Type_ msg = "container")) as [Hty|Hty];
    [|by rewrite Watch_receive_discards by (by left)].
  destruct (decide (Attributes (Actor msg) !! "io.kubernetes.docker.type" = Some "podsandbox"))
    as [Hmark|Hmark]; [|by rewrite Watch_receive_discards by (right; by left)].
  destruct (decide (Action msg ∈ ["kill"; "die"; "stop"; "destroy"])) as [Hact|Hact];
    [|by rewrite Watch_receive_discards by (right; by right)].
  rewrite (Watch_receive_lookup msg s Hty Hmark Hact).
  destruct (danmep_FindByCid (EventID msg) (world s)) as [[eps|e] w1]; [|done].
  apply range_guarded_returns.
Qed.

(** [Watch] once the subscription is made: the loop over the messages
    delivered. *)
Lemma Watch_subscribed (delivered : list APIEvents) (s : State W) w1 :
  docker_AddEventListener (world s) = (None, w1) →
  Watch delivered s
  = range delivered Watch_receive
      (mkState w1 (trace s ++ [Call_AddEventListener; Glog Info_Connected])).
Proof.
  intros Hsub. unfold Watch, mbind, M_bind, call, glog, emit; simpl.
  rewrite Hsub; simpl. by rewrite <- app_assoc.
Qed.

(** Without the subscription the process ends, and nothing is received. *)
Lemma Watch_fatal (delivered : list APIEvents) (s : State W) e w1 :
  docker_AddEventListener (world s) = (Some e, w1) →
  Watch delivered s = (Fatal e, mkState w1 (trace s ++ [Call_AddEventListener])).
Proof.
  intros Hsub. unfold Watch, mbind, M_bind, call, glog_Fatal; simpl.
  by rewrite Hsub.
Qed.

End Events.

(** C6 (event filtering).  A message whose category is not "container", or
    whose actor has no pod-sandbox attribute or another value for it, leaves
    the world and the trace as they were, whatever its action: no call to
    the registry, to the allocator or to anything else. *)
Theorem C6_event_filtering {W} `{!Clients W} (msg : APIEvents) (s : State W) :
  Type_ msg ≠ "container"
  ∨ Attributes (Actor msg) !! "io.kubernetes.docker.type" ≠ Some "podsandbox" →
  Watch_receive msg s = (Done tt, s).
Proof.
  intros [Hty|Hmark]; apply Watch_receive_discards; [by left|right; by left].
Qed.

(** Scenario 3: category "network", action "die"; and a container event
    without the sandbox marker. *)
Lemma C6_witness :
  let s := start (cluster [ep1]) in
  Watch_receive {| Action := "die"; Type_ := "network";
                   Actor := {| ActorID := "abc"; Attributes := ∅ |};
                   EventID := "abc" |} s = (Done tt, s)
  ∧ Watch_receive {| Action := "die"; Type_ := "container";
                     Actor := {| ActorID := "abc";
                                 Attributes := {[ "io.kubernetes.docker.type" := "container" ]} |};
                     EventID := "abc" |} s = (Done tt, s).
Proof.
  intros s. split.
  - apply C6_event_filtering. left. vm_compute. congruence.
  - apply C6_event_filtering. right. vm_compute. congruence.
Defined.

(** C8 (failed and empty searches), as the code has it.  For a container
    event of a pod sandbox with one of the four actions: when the search of
    the registry fails, the watcher adds nothing to the trace but the search
    itself (no log line, no deletion); when the search returns no endpoint,
    it logs the empty result and deletes nothing.  In every case the
    receive returns, so the loop goes on with the messages that follow. *)
Theorem C8_search_outcomes {W} `{!Clients W} (msg : APIEvents) (s : State W) :
  Type_ msg = "container" →
  Attributes (Actor msg) !! "io.kubernetes.docker.type" = Some "podsandbox" →
  Action msg ∈ ["kill"; "die"; "stop"; "destroy"] →
  (∀ e w1, danmep_FindByCid (EventID msg) (world s) = (Err e, w1) →
     Watch_receive msg s
     = (Done tt, mkState w1 (trace s ++ [Call_FindByCid (EventID msg)])))
  ∧ (∀ w1, danmep_FindByCid (EventID msg) (world s) = (Ok [], w1) →
       Watch_receive msg s
       = (Done tt, mkState w1 (trace s ++ [Call_FindByCid (EventID msg);
                                           Glog (Infof_eps [])])))
  ∧ (Watch_receive msg s).1 = Done tt
  ∧ ∀ following,
      range (msg :: following) Watch_receive s
      = range following Watch_receive (Watch_receive msg s).2.
Proof.
  intros Hty Hmark Hact. split; [|split; [|split]].
  - intros e w1 Hfind. by rewrite (Watch_receive_lookup msg s Hty Hmark Hact), Hfind.
  - intros w1 Hfind. by rewrite (Watch_receive_lookup msg s Hty Hmark Hact), Hfind.
  - apply Watch_receive_returns.
  - intros following. simpl. unfold mbind, M_bind.
    pose proof (Watch_receive_returns msg s) as Hdone.
    by destruct (Watch_receive msg s) as [[[]|fatal] s1].
Qed.

(** Scenario 4 (the registry holds no endpoint of "abc"), and the same
    event during an outage of the registry; each followed by a second
    event, which the watcher handles. *)
Lemma C8_witness :
  let empty := start (cluster [ep2]) in
  let down := start (without_registry (cluster [ep1])) in
  let destroy := sandbox_event "destroy" "abc" in
  Watch_receive destroy empty
  = (Done tt, mkState (world empty) [Call_FindByCid "abc"; Glog (Infof_eps [])])
  ∧ Watch_receive destroy down = (Done tt, mkState (world down) [Call_FindByCid "abc"])
  ∧ range [destroy; sandbox_event "die" "def"] Watch_receive down
    = range [sandbox_event "die" "def"] Watch_receive (Watch_receive destroy down).2.
Proof.
  intros empty down destroy.
  assert (Action destroy ∈ ["kill"; "die"; "stop"; "destroy"]) as Hact.
  { do 3 (apply elem_of_cons; right). apply elem_of_cons. by left. }
  assert (Attributes (Actor destroy) !! "io.kubernetes.docker.type" = Some "podsandbox")
    as Hmark by (vm_compute; reflexivity).
  destruct (C8_search_outcomes destroy empty eq_refl Hmark Hact) as (_ & Hempty & _).
  destruct (C8_search_outcomes destroy down eq_refl Hmark Hact) as (Hfail & _ & _ & Hnext).
  split; [|split].
  - apply (Hempty (world empty)). vm_compute. reflexivity.
  - apply (Hfail "registry unreachable" (world down)). vm_compute. reflexivity.
  - apply Hnext.
Defined.

(** The claim as the spec words it has the failed search logged.  During an
    outage of the registry the search for "abc" fails, and the watcher's
    trace of the event holds no log line. *)
Lemma C8_counterexample :
  let down := start (without_registry (cluster [ep1])) in
  let destroy := sandbox_event "destroy" "abc" in
  (danmep_FindByCid (EventID destroy) (world down)).1 = Err "registry unreachable"
  ∧ ¬ ∃ entry, Glog entry ∈ trace (Watch_receive destroy down).2.
Proof.
  intros down destroy. split; [vm_compute; reflexivity|].
  intros [entry Hin]. vm_compute in Hin.
  repeat (apply elem_of_cons in Hin as [Hin|Hin]; [discriminate Hin|]).
  by apply elem_of_nil in Hin.
Qed.

(** * Invariants of the trace *)

(** A property of traces that holds of the empty trace, of two traces put
    end to end, of every event outside the deletion routine and of what one
    run of the routine adds, holds of what any part of the cleaner adds. *)
Section TraceInvariant.
Context {W : Type} `{!Clients W}.
Variable P : list Event → Prop.
Hypothesis P_nil : P [].
Hypothesis P_app : ∀ a b, P a → P b → P (a ++ b).
Hypothesis P_other : ∀ ev, of_routine ev = false → P [ev].
Hypothesis P_routine : ∀ ep, adds P (deleteInterface ep).

Lemma adds_ret {A} (a : A) : adds P (mret a : M W A).
Proof. intros s. exists []. by rewrite app_nil_r. Qed.

Lemma adds_bind {A B} (m : M W A) (k : A → M W B) :
  adds P m → (∀ a, adds P (k a)) → adds P (m ≫= k).
Proof.
  intros Hm Hk s. unfold mbind, M_bind.
  destruct (Hm s) as (added1 & Htrace1 & HP1).
  destruct (m s) as [[a|msg] s1]; simpl in *.
  - destruct (Hk a s1) as (added2 & Htrace2 & HP2).
    exists (added1 ++ added2). split; [|by apply P_app].
    by rewrite Htrace2, Htrace1, app_assoc.
  - by exists added1.
Qed.

Lemma adds_emit (ev : Event) : of_routine ev = false → adds P (emit ev : M W unit).
Proof. intros Hev s. exists [ev]. split; [done|by apply P_other]. Qed.

Lemma adds_call {A} (ev : Event) (op : W → A * W) :
  of_routine ev = false → adds P (call ev op).
Proof.
  intros Hev s. exists [ev]. unfold call.
  destruct (op (world s)) as [a w']. split; [done|by apply P_other].
Qed.

Lemma adds_setup {A} (op : W → A * W) : adds P (setup op).
Proof.
  intros s. exists []. unfold setup.
  destruct (op (world s)) as [a w']. simpl. by rewrite app_nil_r.
Qed.

Lemma adds_Fatal {A} (msg : string) : adds P (glog_Fatal msg : M W A).
Proof. intros s. exists []. by rewrite app_nil_r. Qed.

Lemma adds_range {A} (l : list A) (body : A → M W unit) :
  (∀ x, adds P (body x)) → adds P (range l body).
Proof.
  intros Hbody. induction l as [|x l IH]; simpl.
  - apply adds_ret.
  - apply adds_bind; [apply Hbody|]. intros _. apply IH.
Qed.

Lemma adds_guarded selected ep : adds P (guarded selected ep).
Proof. unfold guarded. destruct (selected ep); [apply P_routine|apply adds_ret]. Qed.

Lemma adds_cleanup_dead E dockerDeads : adds P (cleanup_dead E dockerDeads).
Proof.
  apply adds_range. intros dead. apply adds_range. intros ep.
  exact (adds_guarded (λ ep', bool_decide (CID (Spec ep') = ID dead)) ep).
Qed.

Lemma adds_cleanup_missing E cids : adds P (cleanup_missing E cids).
Proof.
  apply adds_range. intros ep.
  exact (adds_guarded (λ ep', negb (contains cids (CID (Spec ep')))) ep).
Qed.

Lemma adds_cleanup : adds P cleanup.
Proof.
  unfold cleanup, getHostname.
  apply adds_bind.
  { apply adds_bind; [by apply adds_call|].
    intros [ret|err]; [apply adds_ret|apply adds_Fatal]. }
  intros hostname. apply adds_bind; [by apply adds_call|].
  intros [eps|err]; [|by apply adds_emit].
  apply adds_bind; [by apply adds_call|].
  intros [dockerDeads|err]; [|by apply adds_emit].
  apply adds_bind; [by apply adds_call|].
  intros [dockerAll|err]; [|by apply adds_emit].
  apply adds_bind; [apply adds_cleanup_dead|]. intros _. apply adds_cleanup_missing.
Qed.

Lemma adds_ProcessEvent event : adds P (ProcessEvent event).
Proof.
  unfold ProcessEvent. case_bool_decide; [apply adds_ret|].
  destruct (_ || _); [|apply adds_ret].
  apply adds_bind; [by apply adds_call|].
  intros [eps|err]; [|apply adds_ret].
  apply adds_bind; [by apply adds_emit|]. intros _.
  apply adds_range. intros ep. apply P_routine.
Qed.

Lemma adds_Watch_receive msg : adds P (Watch_receive msg).
Proof.
  unfold Watch_receive. case_bool_decide; [apply adds_ProcessEvent|apply adds_ret].
Qed.

Lemma adds_Watch delivered : adds P (Watch delivered).
Proof.
  unfold Watch. apply adds_bind; [by apply adds_call|].
  intros [e|]; [apply adds_Fatal|].
  apply adds_bind; [by apply adds_emit|]. intros _.
  apply adds_range, adds_Watch_receive.
Qed.

Lemma adds_main `{!Startup W} delivered : adds P (main delivered).
Proof.
  unfold main, danmClient. apply adds_bind; [apply adds_setup|].
  intros [e|]; [apply (adds_Fatal (A:=unit))|].
  apply adds_bind.
  { apply adds_bind; [apply adds_setup|]. intros kubeconfig.
    apply adds_bind; [apply adds_setup|].
    intros [cfg|err]; [|apply adds_Fatal].
    apply adds_bind; [apply adds_setup|].
    intros [e|]; [apply adds_Fatal|apply adds_ret]. }
  intros _. apply adds_bind; [apply adds_cleanup|]. intros _. apply adds_Watch.
Qed.

End TraceInvariant.

(** * Whole runs of the deletion routine *)

Lemma routine_blocks_app (a b : list Event) :
  routine_blocks a → routine_blocks b → routine_blocks (a ++ b).
Proof.
  intros Ha Hb. induction Ha; simpl.
  - done.
  - by apply blocks_other.
  - by apply blocks_failed.
  - by apply blocks_exempt.
  - by apply blocks_pooled.
Qed.

Lemma deleteInterface_blocks {W} `{!Clients W} (ep : DanmEp) :
  adds routine_blocks (deleteInterface ep : M W unit).
Proof.
  intros s.
  destruct (DanmNets_Get (Namespace (ObjectMeta ep)) (NetworkID (Spec ep)) (world s))
    as [[netInfo|e] w1] eqn:Hget.
  - destruct (decide (NetworkType (Spec ep) = "ipvlan")) as [Hty|Hty].
    + rewrite (deleteInterface_exempt _ _ _ _ Hget Hty). eexists. split; [done|].
      apply blocks_exempt; [done|constructor].
    + rewrite (deleteInterface_pooled _ _ _ _ Hget Hty). eexists. split; [done|].
      apply blocks_pooled; [done|constructor].
  - rewrite (deleteInterface_fetch_failed _ _ _ _ Hget). eexists. split; [done|].
    apply blocks_failed. constructor.
Qed.

(** What a trace of whole runs tells. *)
Lemma length_omap_cons {B} (f : Event → option B) (ev : Event) (t : list Event) :
  length (omap f (ev :: t))
  = (match f ev with Some _ => 1 | None => 0 end + length (omap f t))%nat.
Proof. simpl. by destruct (f ev). Qed.

Ltac count_events t :=
  unfold fetches, invocations, deletions, fetch_failures, releases in *;
  rewrite ?length_omap_cons;
  repeat match goal with
         | |- context [length (omap ?f t)] =>
             let n := fresh "n" in set (n := length (omap f t)) in *; clearbody n
         end;
  simpl; lia.

Lemma routine_blocks_counts (t : list Event) :
  routine_blocks t →
  length (fetches t) = length (invocations t)
  ∧ length (invocations t) = (length (deletions t) + length (fetch_failures t))%nat
  ∧ (length (releases t) ≤ length (deletions t))%nat.
Proof.
  induction 1 as [|ev t Hev _ IH|ep t _ IH|ep t Hty _ IH|ep netInfo t Hty _ IH].
  - done.
  - destruct IH as (IH1 & IH2 & IH3).
    destruct ev as [| | | | | | | |[]|]; try discriminate Hev; count_events t.
  - destruct IH as (IH1 & IH2 & IH3). count_events t.
  - destruct IH as (IH1 & IH2 & IH3). count_events t.
  - destruct IH as (IH1 & IH2 & IH3). count_events t.
Qed.

Lemma routine_blocks_release (t : list Event) :
  routine_blocks t →
  ∀ before netInfo ip after,
    t = before ++ Call_ipam_Free netInfo ip :: after →
    ∃ ep before' after',
      before = before' ++ [Enter_deleteInterface ep;
                           Call_DanmNets_Get (Namespace (ObjectMeta ep)) (NetworkID (Spec ep))]
      ∧ after = Call_DanmEps_Delete (Namespace (ObjectMeta ep)) (Name (ObjectMeta ep)) :: after'
      ∧ ip = Address (Iface (Spec ep))
      ∧ NetworkType (Spec ep) ≠ "ipvlan".
Proof.
  induction 1 as [|ev t Hev _ IH|ep t _ IH|ep t Hty _ IH|ep n t Hty _ IH];
    intros before netInfo ip after Heq.
  - by destruct before.
  - destruct before as [|ev' before]; simplify_eq/=.
    destruct (IH _ _ _ _ eq_refl) as (ep & b' & a' & -> & -> & -> & Hty).
    eexists ep, (_ :: b'), a'. split; [reflexivity|done].
  - destruct before as [|? [|? [|? before]]]; simplify_eq/=.
    destruct (IH _ _ _ _ eq_refl) as (ep' & b' & a' & -> & -> & -> & Hty).
    eexists ep', (_ :: _ :: _ :: b'), a'. split; [reflexivity|done].
  - destruct before as [|? [|? [|? before]]]; simplify_eq/=.
    destruct (IH _ _ _ _ eq_refl) as (ep' & b' & a' & -> & -> & -> & Hty').
    eexists ep', (_ :: _ :: _ :: b'), a'. split; [reflexivity|done].
  - destruct before as [|? [|? [|? [|? before]]]]; simplify_eq/=.
    + by exists ep, [], t.
    + destruct (IH _ _ _ _ eq_refl) as (ep' & b' & a' & -> & -> & -> & Hty').
      eexists ep', (_ :: _ :: _ :: _ :: b'), a'. split; [reflexivity|done].
Qed.

Lemma routine_blocks_targets (t : list Event) :
  routine_blocks t →
  (∀ k, k ∈ deletions t → ∃ ep, ep ∈ invocations t ∧ ep_key ep = k)
  ∧ (∀ netInfo ip, (netInfo, ip) ∈ releases t →
       ∃ ep, ep ∈ invocations t ∧ Address (Iface (Spec ep)) = ip
             ∧ NetworkType (Spec ep) ≠ "ipvlan").
Proof.
  induction 1 as [|ev t Hev _ IH|ep t _ IH|ep t Hty _ IH|ep n t Hty _ IH].
  - split; intros ?; [|intros ?]; intros Hin; by apply elem_of_nil in Hin.
  - destruct ev as [| | | | | | | |[]|]; try discriminate Hev; exact IH.
  - destruct IH as [IHd IHr]. split.
    + intros k Hin. destruct (IHd k Hin) as (ep' & Hep' & Hk).
      exists ep'. split; [|done]. rewrite invocations_enter. by apply elem_of_cons; right.
    + intros netInfo ip Hin. destruct (IHr _ _ Hin) as (ep' & Hep' & Hk).
      exists ep'. split; [|done]. rewrite invocations_enter. by apply elem_of_cons; right.
  - destruct IH as [IHd IHr]. split.
    + intros k Hin. change (k ∈ ep_key ep :: deletions t) in Hin.
      rewrite invocations_enter. apply elem_of_cons in Hin as [->|Hin].
      * exists ep. split; [by apply elem_of_cons; left|done].
      * destruct (IHd k Hin) as (ep' & Hep' & Hk).
        exists ep'. split; [by apply elem_of_cons; right|done].
    + intros netInfo ip Hin. destruct (IHr _ _ Hin) as (ep' & Hep' & Hk).
      exists ep'. split; [|done]. rewrite invocations_enter. by apply elem_of_cons; right.
  - destruct IH as [IHd IHr]. split.
    + intros k Hin. change (k ∈ ep_key ep :: deletions t) in Hin.
      rewrite invocations_enter. apply elem_of_cons in Hin as [->|Hin].
      * exists ep. split; [by apply elem_of_cons; left|done].
      * destruct (IHd k Hin) as (ep' & Hep' & Hk).
        exists ep'. split; [by apply elem_of_cons; right|done].
    + intros netInfo ip Hin.
      change ((netInfo, ip) ∈ (n, Address (Iface (Spec ep))) :: releases t) in Hin.
      rewrite invocations_enter. apply elem_of_cons in Hin as [[= -> ->]|Hin].
      * exists ep. split; [by apply elem_of_cons; left|done].
      * destruct (IHr _ _ Hin) as (ep' & Hep' & Hk).
        exists ep'. split; [by apply elem_of_cons; right|done].
Qed.

(** * More on the sweep *)

(** X1.  [contains x y] tells whether [y] is an element of [x]; so it is
    false on the empty list, and true as soon as one entry is [y]. *)
Theorem X1_contains_membership (x : list string) (y : string) :
  contains x y = true ↔ y ∈ x.
Proof.
  induction x as [|z x IH]; simpl.
  - split; [discriminate|]. intros Hin. by apply elem_of_nil in Hin.
  - rewrite elem_of_cons. destruct (decide (z = y)) as [->|Hne].
    + rewrite bool_decide_eq_true_2 by done. split; [by left|done].
    + rewrite bool_decide_eq_false_2 by done. rewrite IH.
      split; [by right|]. by intros [->|Hin].
Qed.

(** X2.  The loop of [cleanup] that collects the container IDs yields the
    IDs of the containers listed, in the order of the listing, repeated
    IDs kept; so an ID is collected exactly when a listed container has
    it. *)
Theorem X2_collect_cids (dockerAll : list APIContainers) :
  collect_cids dockerAll = ID <$> dockerAll
  ∧ length (collect_cids dockerAll) = length dockerAll
  ∧ ∀ cid, contains (collect_cids dockerAll) cid = true
           ↔ ∃ container, container ∈ dockerAll ∧ ID container = cid.
Proof.
  rewrite collect_cids_spec. split; [done|]. split; [by rewrite length_fmap|].
  intros cid. rewrite contains_spec, list_elem_of_fmap. split.
  - intros (container & -> & Hin). by exists container.
  - intros (container & Hin & <-). by exists container.
Qed.

(** [cleanup] when one of its three listings fails. *)
Lemma cleanup_listing_failed {W} `{!Clients W} (s : State W) host w1 :
  os_Hostname (world s) = (Ok host, w1) →
  (∀ err w2,
     danmep_CidsByHost host w1 = (Err err, w2) →
     cleanup s
     = (Done tt, mkState w2 (trace s ++ [Call_Hostname; Call_CidsByHost host;
                                         Glog (Errorf_Cleanup_failed err)])))
  ∧ (∀ E w2 err w3,
       danmep_CidsByHost host w1 = (Ok E, w2) →
       docker_ListContainers optDead w2 = (Err err, w3) →
       cleanup s
       = (Done tt, mkState w3 (trace s ++ [Call_Hostname; Call_CidsByHost host;
                                           Call_ListContainers optDead;
                                           Glog (Errorf_Cleanup_failed err)])))
  ∧ (∀ E w2 dockerDeads w3 err w4,
       danmep_CidsByHost host w1 = (Ok E, w2) →
       docker_ListContainers optDead w2 = (Ok dockerDeads, w3) →
       docker_ListContainers optAll w3 = (Err err, w4) →
       cleanup s
       = (Done tt, mkState w4 (trace s ++ [Call_Hostname; Call_CidsByHost host;
                                           Call_ListContainers optDead;
                                           Call_ListContainers optAll;
                                           Glog (Errorf_Cleanup_failed err)]))).
Proof.
  intros Hhost. split; [|split].
  - intros err w2 Heps.
    unfold cleanup, getHostname, mbind, M_bind, mret, M_ret, call, glog, emit; simpl.
    rewrite Hhost; simpl. rewrite Heps; simpl. by rewrite <- !app_assoc.
  - intros E w2 err w3 Heps Hdeads.
    unfold cleanup, getHostname, mbind, M_bind, mret, M_ret, call, glog, emit; simpl.
    rewrite Hhost; simpl. rewrite Heps; simpl. rewrite Hdeads; simpl.
    by rewrite <- !app_assoc.
  - intros E w2 dockerDeads w3 err w4 Heps Hdeads Hall.
    unfold cleanup, getHostname, mbind, M_bind, mret, M_ret, call, glog, emit; simpl.
    rewrite Hhost; simpl. rewrite Heps; simpl. rewrite Hdeads; simpl. rewrite Hall; simpl.
    by rewrite <- !app_assoc.
Qed.

(** X3.  When the host name is known and one of the three listings of the
    sweep fails, [cleanup] makes no further call: it logs "Cleanup failed"
    with the error of that listing and returns.  The listings that come
    after the failed one are not asked for, and the deletion routine runs
    for no endpoint. *)
Theorem X3_cleanup_listing_failure {W} `{!Clients W} (s : State W) host w1 :
  os_Hostname (world s) = (Ok host, w1) →
  (∀ err w2,
     danmep_CidsByHost host w1 = (Err err, w2) →
     cleanup s
     = (Done tt, mkState w2 (trace s ++ [Call_Hostname; Call_CidsByHost host;
                                         Glog (Errorf_Cleanup_failed err)])))
  ∧ (∀ E w2 err w3,
       danmep_CidsByHost host w1 = (Ok E, w2) →
       docker_ListContainers optDead w2 = (Err err, w3) →
       cleanup s
       = (Done tt, mkState w3 (trace s ++ [Call_Hostname; Call_CidsByHost host;
                                           Call_ListContainers optDead;
                                           Glog (Errorf_Cleanup_failed err)])))
  ∧ (∀ E w2 dockerDeads w3 err w4,
       danmep_CidsByHost host w1 = (Ok E, w2) →
       docker_ListContainers optDead w2 = (Ok dockerDeads, w3) →
       docker_ListContainers optAll w3 = (Err err, w4) →
       cleanup s
       = (Done tt, mkState w4 (trace s ++ [Call_Hostname; Call_CidsByHost host;
                                           Call_ListContainers optDead;
                                           Call_ListContainers optAll;
                                           Glog (Errorf_Cleanup_failed err)]))).
Proof.
  intros Hhost. split; [|split].
  - intros err w2 Heps.
    unfold cleanup, getHostname, mbind, M_bind, mret, M_ret, call, glog, emit; simpl.
    rewrite Hhost; simpl. rewrite Heps; simpl. by rewrite <- !app_assoc.
  - intros E w2 err w3 Heps Hdeads.
    unfold cleanup, getHostname, mbind, M_bind, mret, M_ret, call, glog, emit; simpl.
    rewrite Hhost; simpl. rewrite Heps; simpl. rewrite Hdeads; simpl.
    by rewrite <- !app_assoc.
  - intros E w2 dockerDeads w3 err w4 Heps Hdeads Hall.
    unfold cleanup, getHostname, mbind, M_bind, mret, M_ret, call, glog, emit; simpl.
    rewrite Hhost; simpl. rewrite Heps; simpl. rewrite Hdeads; simpl. rewrite Hall; simpl.
    by rewrite <- !app_assoc.
Qed.

(** The registry is down; the runtime is down; the runtime goes away after
    its first listing. *)
Lemma X3_witness :
  let no_registry := start (without_registry (cluster [ep1])) in
  let no_runtime :=
    start (mkCluster (Ok "node1") true true false ∅ [ep1] ∅ []) in
  let flaky := mkState (Flaky.mkWorld 1 (cluster [ep1])) [] in
  glogs (trace (cleanup no_registry).2) = [Errorf_Cleanup_failed "registry unreachable"]
  ∧ trace (cleanup no_runtime).2
    = [Call_Hostname; Call_CidsByHost "node1"; Call_ListContainers optDead;
       Glog (Errorf_Cleanup_failed "runtime unreachable")]
  ∧ trace (cleanup flaky).2
    = [Call_Hostname; Call_CidsByHost "node1"; Call_ListContainers optDead;
       Call_ListContainers optAll; Glog (Errorf_Cleanup_failed "runtime unreachable")].
Proof.
  intros no_registry no_runtime flaky. split; [|split].
  - destruct (X3_cleanup_listing_failure no_registry "node1" (world no_registry))
      as (Hfirst & _); [vm_compute; reflexivity|].
    rewrite (Hfirst "registry unreachable" (world no_registry)); [reflexivity|].
    vm_compute. reflexivity.
  - destruct (X3_cleanup_listing_failure no_runtime "node1" (world no_runtime))
      as (_ & Hsecond & _); [vm_compute; reflexivity|].
    rewrite (Hsecond [ep1] (world no_runtime) "runtime unreachable" (world no_runtime));
      [reflexivity| |]; vm_compute; reflexivity.
  - destruct (X3_cleanup_listing_failure flaky "node1" (world flaky))
      as (_ & _ & Hthird); [vm_compute; reflexivity|].
    rewrite (Hthird [ep1] (world flaky) [ {| ID := "abc"; Status := "exited" |} ]
               (Flaky.mkWorld 0 (cluster [ep1])) "runtime unreachable"
               (Flaky.mkWorld 0 (cluster [ep1])));
      [reflexivity| | |]; vm_compute; reflexivity.
Defined.

Lemma cleanup_no_hostname {W} `{!Clients W} (s : State W) err w1 :
  os_Hostname (world s) = (Err err, w1) →
  cleanup s = (Fatal ("hostname " +:+ err), mkState w1 (trace s ++ [Call_Hostname])).
Proof.
  intros Hhost.
  unfold cleanup, getHostname, mbind, M_bind, call, glog_Fatal; simpl.
  by rewrite Hhost.
Qed.

Lemma cleanup_returns {W} `{!Clients W} (s : State W) host w1 :
  os_Hostname (world s) = (Ok host, w1) → (cleanup s).1 = Done tt.
Proof.
  intros Hhost.
  destruct (danmep_CidsByHost host w1) as [[E|err] w2] eqn:Heps;
    [|by rewrite (proj1 (cleanup_listing_failed s host w1 Hhost) _ _ Heps)].
  destruct (docker_ListContainers optDead w2) as [[dockerDeads|err] w3] eqn:Hdeads;
    [|by rewrite (proj1 (proj2 (cleanup_listing_failed s host w1 Hhost))
                    _ _ _ _ Heps Hdeads)].
  destruct (docker_ListContainers optAll w3) as [[dockerAll|err] w4] eqn:Hall;
    [|by rewrite (proj2 (proj2 (cleanup_listing_failed s host w1 Hhost))
                    _ _ _ _ _ _ Heps Hdeads Hall)].
  rewrite (cleanup_listed s _ _ _ _ _ _ _ _ Hhost Heps Hdeads Hall).
  apply cleanup_missing_run.
Qed.

(** X4.  The sweep ends the process exactly when the host name cannot be
    had; it then has called nothing but [os.Hostname].  With the host name,
    [cleanup] returns to [main] whatever the registry, the allocator and the
    runtime answer. *)
Theorem X4_cleanup_fatal_iff_no_hostname {W} `{!Clients W} (s : State W) :
  ((cleanup s).1 = Done tt ↔ ∃ host, (os_Hostname (world s)).1 = Ok host)
  ∧ ∀ err w1,
      os_Hostname (world s) = (Err err, w1) →
      cleanup s = (Fatal ("hostname " +:+ err), mkState w1 (trace s ++ [Call_Hostname])).
Proof.
  split; [|apply cleanup_no_hostname].
  destruct (os_Hostname (world s)) as [[host|err] w1] eqn:Hhost; simpl.
  - split; [by exists host|]. intros _. by apply (cleanup_returns s host w1).
  - rewrite (cleanup_no_hostname s err w1 Hhost); simpl.
    split; [done|]. by intros [host ?].
Qed.

(** The host has no name: the process ends before the registry is asked
    anything. *)
Lemma X4_witness :
  let nameless := start (mkCluster (Err "no name") true true true ∅ [ep1] ∅ []) in
  cleanup nameless
  = (Fatal "hostname no name", mkState (world nameless) [Call_Hostname]).
Proof.
  intros nameless.
  apply (proj2 (X4_cleanup_fatal_iff_no_hostname nameless) "no name" (world nameless)).
  reflexivity.
Defined.

(** How often the first loop of the sweep selects an endpoint. *)
Lemma count_occ_dead_selection_exact E (dockerDeads : list APIContainers) e :
  count_occ DanmEp_eq_dec (dead_selection E dockerDeads) e
  = (count_occ DanmEp_eq_dec E e
     * length (filter (λ dead, ID dead = CID (Spec e)) dockerDeads))%nat.
Proof.
  unfold dead_selection. induction dockerDeads as [|dead deads IH].
  - simpl. lia.
  - rewrite bind_cons, count_occ_app, count_occ_filter, IH.
    destruct (decide (ID dead = CID (Spec e))) as [Hid|Hid].
    + rewrite filter_cons_True by done. rewrite decide_True by done. simpl. lia.
    + rewrite filter_cons_False by done. rewrite decide_False by done. lia.
Qed.

(** X5.  When the three listings succeed, the sweep runs the deletion
    routine for an endpoint once for each time it is listed in [E] and each
    exited container that has its CID, and once more for each time it is
    listed if no listed container has its CID.  So an endpoint of a
    container that is listed and not exited is not visited, and an endpoint
    is visited twice when the runtime lists its container as exited but not
    among all containers, or lists the exited container twice. *)
Theorem X5_sweep_visit_count {W} `{!Clients W} (s : State W)
    host w1 E w2 dockerDeads w3 dockerAll w4 :
  os_Hostname (world s) = (Ok host, w1) →
  danmep_CidsByHost host w1 = (Ok E, w2) →
  docker_ListContainers optDead w2 = (Ok dockerDeads, w3) →
  docker_ListContainers optAll w3 = (Ok dockerAll, w4) →
  ∃ swept,
    invocations (trace (cleanup s).2) = invocations (trace s) ++ swept
    ∧ ∀ e,
        count_occ DanmEp_eq_dec swept e
        = (count_occ DanmEp_eq_dec E e
           * (length (filter (λ dead, ID dead = CID (Spec e)) dockerDeads)
              + if decide (CID (Spec e) ∈ ID <$> dockerAll) then 0 else 1))%nat.
Proof.
  intros Hhost Heps Hdeads Hall.
  exists (dead_selection E dockerDeads ++ missing_selection E dockerAll). split.
  - rewrite (cleanup_listed s _ _ _ _ _ _ _ _ Hhost Heps Hdeads Hall).
    rewrite (proj2 (cleanup_missing_run _ _ _)), (proj2 (cleanup_dead_run _ _ _)); simpl.
    rewrite invocations_app; simpl. by rewrite app_nil_r, <- app_assoc.
  - intros e. rewrite count_occ_app, count_occ_dead_selection_exact.
    unfold missing_selection. rewrite count_occ_filter.
    destruct (decide (CID (Spec e) ∈ ID <$> dockerAll)) as [Hin|Hin].
    + rewrite decide_False by (intros Hno; by apply Hno). lia.
    + rewrite decide_True by done. lia.
Qed.

(** The runtime lists the exited container "abc" twice: its endpoint is
    visited twice, the endpoint of another container not at all. *)
Lemma X5_witness :
  let twice := [ {| ID := "abc"; Status := "exited" |};
                 {| ID := "abc"; Status := "exited" |} ] in
  let s := start (mkCluster (Ok "node1") true true true
                            {[ ("x", "net1") := net1 ]} [ep1; ep2] ∅ twice) in
  ∃ swept,
    invocations (trace (cleanup s).2) = invocations (trace s) ++ swept
    ∧ ∀ e,
        count_occ DanmEp_eq_dec swept e
        = (count_occ DanmEp_eq_dec [ep1; ep2] e
           * (length (filter (λ dead, ID dead = CID (Spec e)) twice)
              + if decide (CID (Spec e) ∈ ID <$> twice) then 0 else 1))%nat.
Proof.
  intros twice s.
  apply (X5_sweep_visit_count s "node1" (world s) [ep1; ep2] (world s)
           twice (world s) twice (world s));
    vm_compute; reflexivity.
Defined.

Lemma range_skip {W A} (l : list A) (s : State W) :
  range l (λ _ : A, mret tt : M W unit) s = (Done tt, s).
Proof. induction l as [|x l IH]; [done|]. simpl. unfold mbind, M_bind. simpl. apply IH. Qed.

Lemma missing_selection_nil (E : list DanmEp) : missing_selection E [] = E.
Proof.
  unfold missing_selection. induction E as [|e E IH]; [done|].
  rewrite filter_cons_True by (intros Hin; by apply elem_of_nil in Hin).
  by rewrite IH.
Qed.

(** X6.  An empty listing.  If the runtime lists no container at all, the
    sweep runs the deletion routine for every endpoint listed for the host,
    once each, in the order of the listing; if no endpoint is listed for the
    host, the sweep does nothing beyond its four listing calls. *)
Theorem X6_sweep_empty_listings {W} `{!Clients W} (s : State W) host w1 E w2 :
  os_Hostname (world s) = (Ok host, w1) →
  danmep_CidsByHost host w1 = (Ok E, w2) →
  (∀ w3 w4,
     docker_ListContainers optDead w2 = (Ok [], w3) →
     docker_ListContainers optAll w3 = (Ok [], w4) →
     invocations (trace (cleanup s).2) = invocations (trace s) ++ E)
  ∧ (∀ dockerDeads w3 dockerAll w4,
       E = [] →
       docker_ListContainers optDead w2 = (Ok dockerDeads, w3) →
       docker_ListContainers optAll w3 = (Ok dockerAll, w4) →
       cleanup s
       = (Done tt, mkState w4 (trace s ++ [Call_Hostname; Call_CidsByHost host;
                                           Call_ListContainers optDead;
                                           Call_ListContainers optAll]))).
Proof.
  intros Hhost Heps. split.
  - intros w3 w4 Hdeads Hall.
    rewrite (cleanup_listed s _ _ _ _ _ _ _ _ Hhost Heps Hdeads Hall).
    rewrite (proj2 (cleanup_missing_run _ _ _)), (proj2 (cleanup_dead_run _ _ _)); simpl.
    rewrite invocations_app; simpl. by rewrite !app_nil_r, missing_selection_nil.
  - intros dockerDeads w3 dockerAll w4 HE Hdeads Hall. subst E.
    rewrite (cleanup_listed s _ _ _ _ _ _ _ _ Hhost Heps Hdeads Hall).
    unfold cleanup_missing, cleanup_dead. simpl.
    by rewrite range_skip.
Qed.

(** The runtime knows no container; the registry knows no endpoint. *)
Lemma X6_witness :
  let deserted := start (mkCluster (Ok "node1") true true true
                                   {[ ("x", "net1") := net1 ]} [ep1; ep2] ∅ []) in
  let unused := start (cluster []) in
  invocations (trace (cleanup deserted).2) = [ep1; ep2]
  ∧ trace (cleanup unused).2
    = [Call_Hostname; Call_CidsByHost "node1"; Call_ListContainers optDead;
       Call_ListContainers optAll].
Proof.
  intros deserted unused. split.
  - refine (proj1 (X6_sweep_empty_listings deserted "node1" (world deserted) [ep1; ep2]
                     (world deserted) _ _) (world deserted) (world deserted) _ _);
      vm_compute; reflexivity.
  - destruct (X6_sweep_empty_listings unused "node1" (world unused) [] (world unused))
      as [_ Hnone]; [vm_compute; reflexivity..|].
    rewrite (Hnone [ {| ID := "abc"; Status := "exited" |} ] (world unused)
               [ {| ID := "abc"; Status := "exited" |};
                 {| ID := "def"; Status := "running" |} ] (world unused));
      [reflexivity|reflexivity|vm_compute; reflexivity..].
Defined.

(** * What the sweep and the watcher add to the trace *)

Section Blocks.
Context {W : Type} `{!Clients W}.

Lemma blocks_single (ev : Event) : of_routine ev = false → routine_blocks [ev].
Proof. intros Hev. apply blocks_other; [done|constructor]. Qed.

Lemma cleanup_blocks : adds routine_blocks (cleanup : M W unit).
Proof.
  apply adds_cleanup;
    [constructor|apply routine_blocks_app|apply blocks_single|apply deleteInterface_blocks].
Qed.

Lemma Watch_receive_blocks msg : adds routine_blocks (Watch_receive msg : M W unit).
Proof.
  apply adds_Watch_receive;
    [constructor|apply routine_blocks_app|apply blocks_single|apply deleteInterface_blocks].
Qed.

Lemma Watch_blocks delivered : adds routine_blocks (Watch delivered : M W unit).
Proof.
  apply adds_Watch;
    [constructor|apply routine_blocks_app|apply blocks_single|apply deleteInterface_blocks].
Qed.

Lemma adds_impl {A} (P Q : list Event → Prop) (m : M W A) :
  (∀ t, P t → Q t) → adds P m → adds Q m.
Proof.
  intros HPQ Hm s. destruct (Hm s) as (added & Htrace & HP).
  exists added. split; [done|by apply HPQ].
Qed.

(** A loop over endpoints adds whole runs of the routine, for the endpoints
    its guard selects. *)
Lemma range_guarded_blocks selected (l : list DanmEp) (s : State W) :
  ∃ added,
    trace (range l (guarded selected) s).2 = trace s ++ added
    ∧ routine_blocks added
    ∧ invocations added = filter (λ ep, selected ep = true) l.
Proof.
  assert (adds routine_blocks (range l (guarded selected) : M W unit)) as Hadds.
  { apply adds_range; [constructor|apply routine_blocks_app|].
    intros ep. apply adds_guarded; [constructor|apply deleteInterface_blocks]. }
  destruct (Hadds s) as (added & Htrace & Hblocks).
  exists added. split; [done|]. split; [done|].
  destruct (range_guarded_invocations selected l s) as [Hinv _].
  rewrite Htrace, invocations_app in Hinv. by apply app_inv_head in Hinv.
Qed.

End Blocks.

(** X7.  The sweep deletes and releases for orphans only.  When the three
    listings succeed, every record [cleanup] asks the registry to delete is
    the record of an endpoint of [E] whose CID is the ID of an exited
    container or of no listed container; and every address it releases is
    the address of such an endpoint, one that is not of the exempt type. *)
Theorem X7_sweep_touches_orphans_only {W} `{!Clients W} (s : State W)
    host w1 E w2 dockerDeads w3 dockerAll w4 :
  os_Hostname (world s) = (Ok host, w1) →
  danmep_CidsByHost host w1 = (Ok E, w2) →
  docker_ListContainers optDead w2 = (Ok dockerDeads, w3) →
  docker_ListContainers optAll w3 = (Ok dockerAll, w4) →
  ∃ added,
    trace (cleanup s).2 = trace s ++ added
    ∧ only_targets
        (filter (λ e, CID (Spec e) ∈ ID <$> dockerDeads ∨ CID (Spec e) ∉ ID <$> dockerAll) E)
        added.
Proof.
  intros Hhost Heps Hdeads Hall.
  destruct (cleanup_blocks s) as (added & Htrace & Hblocks).
  exists added. split; [done|].
  assert (invocations added = dead_selection E dockerDeads ++ missing_selection E dockerAll)
    as Hinv.
  { assert (invocations (trace (cleanup s).2)
            = invocations (trace s)
              ++ dead_selection E dockerDeads ++ missing_selection E dockerAll) as Hswept.
    { rewrite (cleanup_listed s _ _ _ _ _ _ _ _ Hhost Heps Hdeads Hall).
      rewrite (proj2 (cleanup_missing_run _ _ _)), (proj2 (cleanup_dead_run _ _ _)); simpl.
      rewrite invocations_app; simpl. by rewrite app_nil_r, <- app_assoc. }
    rewrite Htrace, invocations_app in Hswept. by apply app_inv_head in Hswept. }
  assert (∀ ep, ep ∈ invocations added →
            ep ∈ filter (λ e, CID (Spec e) ∈ ID <$> dockerDeads
                              ∨ CID (Spec e) ∉ ID <$> dockerAll) E) as Horphan.
  { intros ep. rewrite Hinv, elem_of_app, elem_of_dead_selection,
      elem_of_missing_selection, list_elem_of_filter. tauto. }
  destruct (routine_blocks_targets added Hblocks) as [Hdel Hrel]. split.
  - intros k Hk. destruct (Hdel k Hk) as (ep & Hep & Hkey). exists ep. auto.
  - intros netInfo ip Hin. destruct (Hrel _ _ Hin) as (ep & Hep & Hip). exists ep. auto.
Qed.

(** In the sweep of scenario 1 with four endpoints, the record of the
    endpoint of the running container "def" is not among those deleted. *)
Lemma X7_witness :
  let s := start (cluster [ep1; ep0; ep2; ep3]) in
  ∃ added,
    trace (cleanup s).2 = trace s ++ added
    ∧ only_targets
        (filter (λ e, CID (Spec e) ∈ ID <$> [ {| ID := "abc"; Status := "exited" |} ]
                      ∨ CID (Spec e) ∉ ID <$> [ {| ID := "abc"; Status := "exited" |};
                                                {| ID := "def"; Status := "running" |} ])
                [ep1; ep0; ep2; ep3])
        added.
Proof.
  intros s.
  apply (X7_sweep_touches_orphans_only s "node1" (world s) _ (world s) _ (world s)
           _ (world s)); vm_compute; reflexivity.
Defined.

(** X8.  Whatever the collaborators answer, in what the sweep adds to the
    trace and in what the watcher adds for any messages, a release is never
    alone: it follows the entry of the routine for an endpoint and the fetch
    of its network, it is for that endpoint's address, and the deletion of
    that endpoint's record is the next event. *)
Theorem X8_release_then_delete {W} `{!Clients W} :
  adds releases_then_deletes (cleanup : M W unit)
  ∧ ∀ delivered, adds releases_then_deletes (Watch delivered : M W unit).
Proof.
  split; [|intros delivered].
  - apply (adds_impl routine_blocks); [|apply cleanup_blocks].
    intros t Ht before netInfo ip after. by apply routine_blocks_release.
  - apply (adds_impl routine_blocks); [|apply Watch_blocks].
    intros t Ht before netInfo ip after. by apply routine_blocks_release.
Qed.

(** X9.  Whatever the collaborators answer, in what the sweep adds to the
    trace and in what the watcher adds for any messages: the network
    definition is fetched once for each entry of the deletion routine; each
    entry ends in the deletion of a record or in the log line of the failed
    fetch, never in both and never in neither; and no more addresses are
    released than records are deleted. *)
Theorem X9_runs_accounted {W} `{!Clients W} :
  adds accounted (cleanup : M W unit)
  ∧ ∀ delivered, adds accounted (Watch delivered : M W unit).
Proof.
  split; [|intros delivered].
  - apply (adds_impl routine_blocks); [apply routine_blocks_counts|apply cleanup_blocks].
  - apply (adds_impl routine_blocks); [apply routine_blocks_counts|apply Watch_blocks].
Qed.

(** * More on the watcher *)

Section Watcher.
Context {W : Type} `{!Clients W}.

Lemma not_relevant (msg : APIEvents) :
  ¬ relevant msg →
  Type_ msg ≠ "container"
  ∨ Attributes (Actor msg) !! "io.kubernetes.docker.type" ≠ Some "podsandbox"
  ∨ Action msg ∉ ["kill"; "die"; "stop"; "destroy"].
Proof.
  unfold relevant. intros Hno.
  destruct (decide (Type_ msg = "container")); [|by left].
  destruct (decide (Attributes (Actor msg) !! "io.kubernetes.docker.type"
                    = Some "podsandbox")); [|right; by left].
  right; right. intros Hact. by apply Hno.
Qed.

(** What the watcher adds to the trace for one message the filter lets
    through. *)
Lemma Watch_receive_relevant (msg : APIEvents) (s : State W) :
  relevant msg →
  ∃ added,
    trace (Watch_receive msg s).2 = trace s ++ Call_FindByCid (EventID msg) :: added
    ∧ lookups added = []
    ∧ routine_blocks (Call_FindByCid (EventID msg) :: added)
    ∧ ∀ r w1, danmep_FindByCid (EventID msg) (world s) = (r, w1) →
        invocations added = match r with Ok eps => eps | Err _ => [] end.
Proof.
  intros (Hty & Hmark & Hact). rewrite (Watch_receive_lookup msg s Hty Hmark Hact).
  destruct (danmep_FindByCid (EventID msg) (world s)) as [[eps|e] w1] eqn:Hfind.
  - set (s1 := mkState w1 (trace s ++ [Call_FindByCid (EventID msg); Glog (Infof_eps eps)])).
    destruct (range_guarded_blocks (λ _, true) eps s1) as (added & Htrace & Hblocks & Hinv).
    destruct (range_guarded_invocations (λ _, true) eps s1) as [_ Hlook].
    rewrite Htrace, lookups_app in Hlook.
    rewrite <- (app_nil_r (lookups (trace s1))) in Hlook at 2.
    apply app_inv_head in Hlook. rewrite filter_always in Hinv.
    exists (Glog (Infof_eps eps) :: added). split; [|split; [|split]].
    + rewrite Htrace. subst s1; simpl. by rewrite <- app_assoc.
    + exact Hlook.
    + apply blocks_other; [done|]. by apply blocks_other.
    + by intros r w1' [= <- <-].
  - exists []. split; [done|]. split; [done|]. split; [by apply blocks_single|].
    by intros r w1' [= <- <-].
Qed.

(** The searches made for a sequence of messages. *)
Lemma range_Watch_receive_lookups (delivered : list APIEvents) (s : State W) :
  (range delivered Watch_receive s).1 = Done tt
  ∧ lookups (trace (range delivered Watch_receive s).2)
    = lookups (trace s) ++ (EventID <$> filter relevant delivered).
Proof.
  revert s. induction delivered as [|msg delivered IH]; intros s.
  - simpl. by rewrite app_nil_r.
  - simpl. unfold mbind, M_bind.
    pose proof (Watch_receive_returns msg s) as Hdone.
    destruct (decide (relevant msg)) as [Hrel|Hrel].
    + destruct (Watch_receive_relevant msg s Hrel) as (added & Htrace & Hlook & _).
      destruct (Watch_receive msg s) as [[[]|fatal] s1]; simpl in *; [|done].
      destruct (IH s1) as [-> ->]. split; [done|].
      rewrite filter_cons_True by done. rewrite Htrace, lookups_app. simpl.
      change (lookups (Call_FindByCid (EventID msg) :: added))
        with (EventID msg :: lookups added).
      by rewrite Hlook, <- app_assoc.
    + rewrite (Watch_receive_discards msg s (not_relevant msg Hrel)).
      rewrite filter_cons_False by done. apply IH.
Qed.

End Watcher.

(** X10.  Once subscribed, the watcher handles the messages in the order
    they are delivered and searches the registry once for each message it
    acts on (a container event of a pod sandbox with action kill, die, stop
    or destroy), for that message's container ID, and for no other message;
    and it does not end the process, whatever the collaborators answer. *)
Theorem X10_watch_searches_in_order {W} `{!Clients W}
    (delivered : list APIEvents) (s : State W) w1 :
  docker_AddEventListener (world s) = (None, w1) →
  (Watch delivered s).1 = Done tt
  ∧ lookups (trace (Watch delivered s).2)
    = lookups (trace s) ++ (EventID <$> filter relevant delivered).
Proof.
  intros Hsub. rewrite (Watch_subscribed delivered s w1 Hsub).
  destruct (range_Watch_receive_lookups delivered
              (mkState w1 (trace s ++ [Call_AddEventListener; Glog Info_Connected])))
    as [-> ->].
  split; [done|]. simpl. rewrite lookups_app. simpl. by rewrite app_nil_r.
Qed.

(** Five messages, two of them acted on. *)
Lemma X10_witness :
  let s := start (cluster [ep1; ep2]) in
  let delivered :=
    [ sandbox_event "start" "def";
      sandbox_event "die" "abc";
      {| Action := "die"; Type_ := "network";
         Actor := {| ActorID := "n1"; Attributes := ∅ |}; EventID := "n1" |};
      {| Action := "die"; Type_ := "container";
         Actor := {| ActorID := "app"; Attributes := ∅ |}; EventID := "app" |};
      sandbox_event "destroy" "def" ] in
  (Watch delivered s).1 = Done tt
  ∧ lookups (trace (Watch delivered s).2) = ["abc"; "def"].
Proof.
  intros s delivered.
  destruct (X10_watch_searches_in_order delivered s (world s)) as [Hdone Hlook];
    [vm_compute; reflexivity|].
  split; [exact Hdone|]. rewrite Hlook. vm_compute. reflexivity.
Defined.

(** X11.  [Watch] ends the process exactly when the subscription to the
    runtime's events fails; it then has logged nothing and handled no
    message, and the message of the exit is the error of the
    subscription. *)
Theorem X11_watch_fatal_iff_not_subscribed {W} `{!Clients W}
    (delivered : list APIEvents) (s : State W) :
  ((Watch delivered s).1 = Done tt ↔ (docker_AddEventListener (world s)).1 = None)
  ∧ ∀ err w1,
      docker_AddEventListener (world s) = (Some err, w1) →
      Watch delivered s = (Fatal err, mkState w1 (trace s ++ [Call_AddEventListener])).
Proof.
  split.
  - destruct (docker_AddEventListener (world s)) as [[err|] w1] eqn:Hsub; simpl.
    + rewrite (Watch_fatal delivered s err w1 Hsub). simpl. split; discriminate.
    + rewrite (Watch_subscribed delivered s w1 Hsub). split; [done|]. intros _.
      apply range_Watch_receive_lookups.
  - intros err w1 Hsub. by apply Watch_fatal.
Qed.

(** The runtime is down when the watcher starts. *)
Lemma X11_witness :
  let s := start (mkCluster (Ok "node1") true true false ∅ [ep1] ∅ []) in
  Watch [sandbox_event "die" "abc"] s
  = (Fatal "runtime unreachable", mkState (world s) [Call_AddEventListener]).
Proof.
  intros s.
  apply (proj2 (X11_watch_fatal_iff_not_subscribed [sandbox_event "die" "abc"] s)
           "runtime unreachable" (world s)).
  reflexivity.
Defined.

(** X12.  The watcher deletes and releases only for what the search
    returned.  For any one message, every record the watcher asks the
    registry to delete is the record of an endpoint that the search for the
    message's container ID returned, and every address released is the
    address of such an endpoint, one not of the exempt type; so for a
    message it does not act on, and after a failed or empty search, nothing
    is deleted and nothing released. *)
Theorem X12_watch_touches_found_only {W} `{!Clients W} (msg : APIEvents) (s : State W) :
  ∃ added,
    trace (Watch_receive msg s).2 = trace s ++ added
    ∧ only_targets
        (if decide (relevant msg)
         then match (danmep_FindByCid (EventID msg) (world s)).1 with
              | Ok eps => eps
              | Err _ => []
              end
         else [])
        added.
Proof.
  destruct (decide (relevant msg)) as [Hrel|Hrel].
  - destruct (Watch_receive_relevant msg s Hrel) as (added & Htrace & _ & Hblocks & Hinv).
    exists (Call_FindByCid (EventID msg) :: added). split; [done|].
    destruct (danmep_FindByCid (EventID msg) (world s)) as [r w1] eqn:Hfind.
    specialize (Hinv r w1 eq_refl). simpl.
    destruct (routine_blocks_targets _ Hblocks) as [Hdel Hrel'].
    change (invocations (Call_FindByCid (EventID msg) :: added))
      with (invocations added) in Hdel, Hrel'.
    rewrite Hinv in Hdel, Hrel'. by split.
  - exists []. rewrite (Watch_receive_discards msg s (not_relevant msg Hrel)).
    simpl. split; [by rewrite app_nil_r|].
    split; [intros k Hk|intros netInfo ip Hk]; by apply elem_of_nil in Hk.
Qed.

(** * The process *)

Section Main.
Context {W : Type} `{!Clients W} `{!Startup W}.

(** [main] once both clients are built: the sweep, then the watcher. *)
Lemma main_started (delivered : list APIEvents) (s : State W) w1 kubeconfig w2 cfg w3 w4 :
  docker_NewClientFromEnv (world s) = (None, w1) →
  flag_Parse w1 = (kubeconfig, w2) →
  clientcmd_BuildConfigFromFlags "" kubeconfig w2 = (Ok cfg, w3) →
  danmclientset_NewForConfig cfg w3 = (None, w4) →
  main delivered s = (cleanup ;; Watch delivered) (mkState w4 (trace s)).
Proof.
  intros Hdocker Hflag Hcfg Hcli.
  unfold main, danmClient, setup, mbind, M_bind; simpl.
  rewrite Hdocker; simpl. rewrite Hflag; simpl. rewrite Hcfg; simpl. by rewrite Hcli.
Qed.

End Main.

(** X13.  Once both clients are built, [main] runs the sweep to its end
    and only then subscribes to the runtime's events.  If the host name is
    known, the watcher starts on the state the sweep left, whatever the
    sweep met (a failed listing, failed fetches, failed deletions); if it is
    not, the process ends in the sweep and never subscribes. *)
Theorem X13_main_sweeps_then_watches {W} `{!Clients W} `{!Startup W}
    (delivered : list APIEvents) (s : State W) w1 kubeconfig w2 cfg w3 w4 :
  docker_NewClientFromEnv (world s) = (None, w1) →
  flag_Parse w1 = (kubeconfig, w2) →
  clientcmd_BuildConfigFromFlags "" kubeconfig w2 = (Ok cfg, w3) →
  danmclientset_NewForConfig cfg w3 = (None, w4) →
  (∀ host w5,
     os_Hostname w4 = (Ok host, w5) →
     main delivered s = Watch delivered (cleanup (mkState w4 (trace s))).2)
  ∧ (∀ err w5,
       os_Hostname w4 = (Err err, w5) →
       main delivered s
       = (Fatal ("hostname " +:+ err), mkState w5 (trace s ++ [Call_Hostname]))).
Proof.
  intros Hdocker Hflag Hcfg Hcli.
  rewrite (main_started delivered s _ _ _ _ _ _ Hdocker Hflag Hcfg Hcli).
  unfold mbind, M_bind. split.
  - intros host w5 Hhost.
    assert ((cleanup (mkState w4 (trace s))).1 = Done tt) as Hdone.
    { by apply (cleanup_returns _ host w5). }
    by destruct (cleanup (mkState w4 (trace s))) as [[[]|fatal] s1].
  - intros err w5 Hhost.
    by rewrite (cleanup_no_hostname (mkState w4 (trace s)) err w5 Hhost).
Qed.

(** Started in the cluster: the sweep of scenario 1 comes before the
    subscription, and the event is handled after both.  On a host without a
    name the process ends in the sweep. *)
Lemma X13_witness :
  let s := start (cluster [ep1]) in
  let nameless := start (mkCluster (Err "no name") true true true ∅ [ep1] ∅ []) in
  let delivered := [sandbox_event "die" "abc"] in
  @main Cluster _ (Boot.startup Boot.in_cluster) delivered s
  = Watch delivered (cleanup s).2
  ∧ @main Cluster _ (Boot.startup Boot.in_cluster) delivered nameless
    = (Fatal "hostname no name", mkState (world nameless) [Call_Hostname]).
Proof.
  intros s nameless delivered. split.
  - refine (proj1 (@X13_main_sweeps_then_watches Cluster _ (Boot.startup Boot.in_cluster)
                     delivered s (world s) "" (world s) tt (world s) (world s) _ _ _ _)
                  "node1" (world s) _); reflexivity.
  - refine (proj2 (@X13_main_sweeps_then_watches Cluster _ (Boot.startup Boot.in_cluster)
                     delivered nameless (world nameless) "" (world nameless) tt
                     (world nameless) (world nameless) _ _ _ _)
                  "no name" (world nameless) _); reflexivity.
Defined.

(** X14.  When a client cannot be built, the process ends before the sweep:
    [main] panics with the error of the runtime client, or [danmClient] ends
    the process with "Error building kubeconfig: ..." or "Error building
    example clientset: ...".  The configuration is built from the empty
    master URL and the value of the flag [kubeconfig].  In each case the
    trace is as it was: the host name was not asked for, nothing was listed,
    no subscription was made. *)
Theorem X14_main_setup_failure {W} `{!Clients W} `{!Startup W}
    (delivered : list APIEvents) (s : State W) :
  (∀ err w1,
     docker_NewClientFromEnv (world s) = (Some err, w1) →
     main delivered s = (Fatal ("panic: " +:+ err), mkState w1 (trace s)))
  ∧ (∀ w1 kubeconfig w2 err w3,
       docker_NewClientFromEnv (world s) = (None, w1) →
       flag_Parse w1 = (kubeconfig, w2) →
       clientcmd_BuildConfigFromFlags "" kubeconfig w2 = (Err err, w3) →
       main delivered s
       = (Fatal ("Error building kubeconfig: " +:+ err), mkState w3 (trace s)))
  ∧ (∀ w1 kubeconfig w2 cfg w3 err w4,
       docker_NewClientFromEnv (world s) = (None, w1) →
       flag_Parse w1 = (kubeconfig, w2) →
       clientcmd_BuildConfigFromFlags "" kubeconfig w2 = (Ok cfg, w3) →
       danmclientset_NewForConfig cfg w3 = (Some err, w4) →
       main delivered s
       = (Fatal ("Error building example clientset: " +:+ err), mkState w4 (trace s))).
Proof.
  split; [|split].
  - intros err w1 Hdocker. unfold main, setup, panic, mbind, M_bind; simpl.
    by rewrite Hdocker.
  - intros w1 kubeconfig w2 err w3 Hdocker Hflag Hcfg.
    unfold main, danmClient, setup, glog_Fatal, mbind, M_bind; simpl.
    rewrite Hdocker; simpl. rewrite Hflag; simpl. by rewrite Hcfg.
  - intros w1 kubeconfig w2 cfg w3 err w4 Hdocker Hflag Hcfg Hcli.
    unfold main, danmClient, setup, glog_Fatal, mbind, M_bind; simpl.
    rewrite Hdocker; simpl. rewrite Hflag; simpl. rewrite Hcfg; simpl. by rewrite Hcli.
Qed.

(** No runtime client; a flag that names no file; no registry client. *)
Lemma X14_witness :
  let s := start (cluster [ep1]) in
  let delivered := [sandbox_event "die" "abc"] in
  let no_docker := Boot.mkEnv (Some "invalid endpoint") "" (Ok tt) None in
  let no_clientset := Boot.mkEnv None "" (Ok tt) (Some "bad host") in
  @main Cluster _ (Boot.startup no_docker) delivered s
  = (Fatal "panic: invalid endpoint", s)
  ∧ @main Cluster _ (Boot.startup Boot.bad_kubeconfig) delivered s
    = (Fatal "Error building kubeconfig: no such file", s)
  ∧ @main Cluster _ (Boot.startup no_clientset) delivered s
    = (Fatal "Error building example clientset: bad host", s).
Proof.
  intros s delivered no_docker no_clientset. split; [|split].
  - refine (proj1 (@X14_main_setup_failure Cluster _ (Boot.startup no_docker) delivered s)
                  "invalid endpoint" (world s) _). reflexivity.
  - refine (proj1 (proj2 (@X14_main_setup_failure Cluster _
                            (Boot.startup Boot.bad_kubeconfig) delivered s))
                  (world s) "/no/such/file" (world s) "no such file" (world s) _ _ _);
      reflexivity.
  - refine (proj2 (proj2 (@X14_main_setup_failure Cluster _
                            (Boot.startup no_clientset) delivered s))
                  (world s) "" (world s) tt (world s) "bad host" (world s) _ _ _ _);
      reflexivity.
Defined.

(** X15.  The order of the sweep.  When the three listings succeed, the
    deletion routine runs first for the endpoints of exited containers,
    exited container by exited container in the order the runtime lists
    them, and for each in the order of [E]; then, in the order of [E], for
    the endpoints whose CID no listed container has.  The first loop is over
    before the second starts. *)
Theorem X15_sweep_order {W} `{!Clients W} (s : State W)
    host w1 E w2 dockerDeads w3 dockerAll w4 :
  os_Hostname (world s) = (Ok host, w1) →
  danmep_CidsByHost host w1 = (Ok E, w2) →
  docker_ListContainers optDead w2 = (Ok dockerDeads, w3) →
  docker_ListContainers optAll w3 = (Ok dockerAll, w4) →
  invocations (trace (cleanup s).2)
  = invocations (trace s)
    ++ (dead ← dockerDeads; filter (λ ep, CID (Spec ep) = ID dead) E)
    ++ filter (λ ep, CID (Spec ep) ∉ ID <$> dockerAll) E.
Proof.
  intros Hhost Heps Hdeads Hall.
  rewrite (cleanup_listed s _ _ _ _ _ _ _ _ Hhost Heps Hdeads Hall).
  rewrite (proj2 (cleanup_missing_run _ _ _)), (proj2 (cleanup_dead_run _ _ _)); simpl.
  rewrite invocations_app; simpl. by rewrite app_nil_r, <- app_assoc.
Qed.

(** Two exited containers, listed "def" first: the endpoint of "def" is
    visited before the endpoint of "abc", and the endpoint of the unlisted
    "ghi" last, whatever their order in the registry. *)
Lemma X15_witness :
  let s := start (mkCluster (Ok "node1") true true true
                            {[ ("x", "net1") := net1 ]} [ep3; ep1; ep2] ∅
                            [ {| ID := "def"; Status := "exited" |};
                              {| ID := "abc"; Status := "exited" |} ]) in
  invocations (trace (cleanup s).2) = [ep2; ep1; ep3].
Proof.
  intros s.
  rewrite (X15_sweep_order s "node1" (world s) [ep3; ep1; ep2] (world s)
             [ {| ID := "def"; Status := "exited" |}; {| ID := "abc"; Status := "exited" |} ]
             (world s)
             [ {| ID := "def"; Status := "exited" |}; {| ID := "abc"; Status := "exited" |} ]
             (world s)); vm_compute; reflexivity.
Defined.

(** * The runs of a batch *)

Section Runs.
Context {W : Type} `{!Clients W}.

Lemma runs_from_app (w : W) l1 t1 w1 l2 t2 w2 :
  runs_from w l1 t1 w1 → runs_from w1 l2 t2 w2 → runs_from w (l1 ++ l2) (t1 ++ t2) w2.
Proof.
  intros H1 H2. induction H1; simpl.
  - done.
  - eapply runs_fetch_failed; eauto.
  - eapply runs_exempt; eauto.
  - eapply runs_pooled; eauto.
Qed.

(** The events of a batch are entries of the routine for its endpoints, in
    order, and no search. *)
Lemma runs_from_readers (w : W) l t w' :
  runs_from w l t w' → invocations t = l ∧ lookups t = [].
Proof.
  induction 1 as [|? ? ? ? ? ? ? _ _ [IH1 IH2]|? ? ? ? ? ? ? ? ? _ _ _ _ [IH1 IH2]
                  |? ? ? ? ? ? ? ? ? ? ? _ _ _ _ _ [IH1 IH2]].
  - done.
  - split; [rewrite invocations_enter|rewrite lookups_enter].
    + f_equal. exact IH1.
    + exact IH2.
  - split; [rewrite invocations_enter|rewrite lookups_enter].
    + f_equal. exact IH1.
    + exact IH2.
  - split; [rewrite invocations_enter|rewrite lookups_enter].
    + f_equal. exact IH1.
    + exact IH2.
Qed.

Lemma deleteInterface_run (ep : DanmEp) (s : State W) :
  ∃ t w', deleteInterface ep s = (Done tt, mkState w' (trace s ++ t))
          ∧ runs_from (world s) [ep] t w'.
Proof.
  destruct (DanmNets_Get (Namespace (ObjectMeta ep)) (NetworkID (Spec ep)) (world s))
    as [[netInfo|e] w1] eqn:Hget.
  - destruct (decide (NetworkType (Spec ep) = "ipvlan")) as [Hty|Hty].
    + destruct (DanmEps_Delete (Namespace (ObjectMeta ep)) (Name (ObjectMeta ep)) w1)
        as [rd w2] eqn:Hdel.
      rewrite (deleteInterface_exempt _ _ _ _ Hget Hty), Hdel. simpl.
      eexists _, w2. split; [reflexivity|].
      eapply runs_exempt; [exact Hget|exact Hty|exact Hdel|constructor].
    + destruct (ipam_Free netInfo (Address (Iface (Spec ep))) w1) as [rf w2] eqn:Hfree.
      destruct (DanmEps_Delete (Namespace (ObjectMeta ep)) (Name (ObjectMeta ep)) w2)
        as [rd w3] eqn:Hdel.
      rewrite (deleteInterface_pooled _ _ _ _ Hget Hty), Hfree. simpl. rewrite Hdel. simpl.
      eexists _, w3. split; [reflexivity|].
      eapply runs_pooled; [exact Hget|exact Hty|exact Hfree|exact Hdel|constructor].
  - rewrite (deleteInterface_fetch_failed _ _ _ _ Hget).
    eexists _, w1. split; [reflexivity|].
    eapply runs_fetch_failed; [exact Hget|constructor].
Qed.

Lemma range_guarded_runs selected (l : list DanmEp) (s : State W) :
  ∃ t w', range l (guarded selected) s = (Done tt, mkState w' (trace s ++ t))
          ∧ runs_from (world s) (filter (λ ep, selected ep = true) l) t w'.
Proof.
  revert s. induction l as [|ep l IH]; intros s.
  - exists [], (world s). simpl. rewrite app_nil_r. split; [by destruct s|constructor].
  - simpl. unfold mbind, M_bind, guarded at 1.
    destruct (selected ep) eqn:Hsel.
    + destruct (deleteInterface_run ep s) as (t1 & w1 & -> & Hrun1).
      destruct (IH (mkState w1 (trace s ++ t1))) as (t2 & w2 & -> & Hrun2).
      exists (t1 ++ t2), w2. simpl. split; [by rewrite app_assoc|].
      rewrite filter_cons_True by done.
      by apply (runs_from_app _ [ep] _ w1).
    + simpl. destruct (IH s) as (t2 & w2 & -> & Hrun2).
      exists t2, w2. split; [done|].
      rewrite filter_cons_False; [done|]. by rewrite Hsel.
Qed.

Lemma cleanup_dead_runs (E : list DanmEp) (dockerDeads : list APIContainers) (s : State W) :
  ∃ t w', cleanup_dead E dockerDeads s = (Done tt, mkState w' (trace s ++ t))
          ∧ runs_from (world s) (dead_selection E dockerDeads) t w'.
Proof.
  unfold cleanup_dead, dead_selection.
  revert s. induction dockerDeads as [|dead deads IH]; intros s.
  - exists [], (world s). simpl. rewrite app_nil_r. split; [by destruct s|constructor].
  - simpl. unfold mbind at 1, M_bind.
    set (selected := λ ep : DanmEp, bool_decide (CID (Spec ep) = ID dead)).
    change (range E _ s) with (range E (guarded selected) s).
    destruct (range_guarded_runs selected E s) as (t1 & w1 & -> & Hrun1).
    destruct (IH (mkState w1 (trace s ++ t1))) as (t2 & w2 & -> & Hrun2).
    exists (t1 ++ t2), w2. simpl. split; [by rewrite app_assoc|].
    apply (runs_from_app _ _ _ w1); [|exact Hrun2].
    erewrite list_filter_iff; [exact Hrun1|].
    intros ep. unfold selected. by rewrite bool_decide_eq_true.
Qed.

Lemma cleanup_missing_runs (E : list DanmEp) (dockerAll : list APIContainers) (s : State W) :
  ∃ t w', cleanup_missing E (collect_cids dockerAll) s = (Done tt, mkState w' (trace s ++ t))
          ∧ runs_from (world s) (missing_selection E dockerAll) t w'.
Proof.
  unfold cleanup_missing, missing_selection.
  set (selected := λ ep : DanmEp, negb (contains (collect_cids dockerAll) (CID (Spec ep)))).
  change (range E _ s) with (range E (guarded selected) s).
  destruct (range_guarded_runs selected E s) as (t & w' & -> & Hrun).
  exists t, w'. split; [done|].
  erewrite list_filter_iff; [exact Hrun|].
  intros ep. unfold selected.
  rewrite negb_true_iff, <- not_true_iff_false, contains_spec.
  by rewrite collect_cids_spec.
Qed.

(** The run of one endpoint inside a batch. *)
Lemma runs_from_split (w : W) pre B post t w' :
  runs_from w (pre ++ B :: post) t w' →
  ∃ tpre wB tB wB' tpost,
    runs_from w pre tpre wB ∧ runs_from wB [B] tB wB' ∧ runs_from wB' post tpost w'
    ∧ t = tpre ++ tB ++ tpost.
Proof.
  revert w t. induction pre as [|ep pre IH]; intros w t Hruns; simpl in Hruns.
  - inversion Hruns; subst.
    + eexists [], w, _, _, _. split; [constructor|]. split; [|split; [eassumption|]].
      * eapply runs_fetch_failed; [eassumption|constructor].
      * done.
    + eexists [], w, _, _, _. split; [constructor|]. split; [|split; [eassumption|]].
      * eapply runs_exempt; [eassumption..|constructor].
      * done.
    + eexists [], w, _, _, _. split; [constructor|]. split; [|split; [eassumption|]].
      * eapply runs_pooled; [eassumption..|constructor].
      * done.
  - inversion Hruns; subst.
    + match goal with
      | Hrest : runs_from _ (pre ++ B :: post) _ _ |- _ =>
          destruct (IH _ _ Hrest) as (tpre & wB & tB & wB' & tpost & Hpre & Hone & Hpost & ->)
      end.
      eexists _, wB, tB, wB', tpost. split; [eapply runs_fetch_failed; eassumption|].
      done.
    + match goal with
      | Hrest : runs_from _ (pre ++ B :: post) _ _ |- _ =>
          destruct (IH _ _ Hrest) as (tpre & wB & tB & wB' & tpost & Hpre & Hone & Hpost & ->)
      end.
      eexists _, wB, tB, wB', tpost. split; [eapply runs_exempt; eassumption|].
      done.
    + match goal with
      | Hrest : runs_from _ (pre ++ B :: post) _ _ |- _ =>
          destruct (IH _ _ Hrest) as (tpre & wB & tB & wB' & tpost & Hpre & Hone & Hpost & ->)
      end.
      eexists _, wB, tB, wB', tpost. split; [eapply runs_pooled; eassumption|].
      done.
Qed.

Lemma runs_from_fetched (w : W) B tB wB' netInfo w1 :
  runs_from w [B] tB wB' →
  DanmNets_Get (Namespace (ObjectMeta B)) (NetworkID (Spec B)) w = (Ok netInfo, w1) →
  tB = deleted_run B netInfo.
Proof.
  intros Hrun Hget. unfold deleted_run.
  inversion Hrun as [|? ? ? ? ? ? ? Hget' Hrest|? ? ? ? ? ? ? ? ? Hget' Hty Hdel Hrest
                     |? ? ? ? ? ? ? ? ? ? ? Hget' Hty Hfree Hdel Hrest]; subst;
    rewrite Hget in Hget'; simplify_eq; inversion Hrest; subst.
  - by rewrite bool_decide_eq_false_2 by (intros Hne; by apply Hne).
  - by rewrite bool_decide_eq_true_2 by done.
Qed.

Lemma runs_from_failed (w : W) A tA wA' e w1 :
  runs_from w [A] tA wA' →
  DanmNets_Get (Namespace (ObjectMeta A)) (NetworkID (Spec A)) w = (Err e, w1) →
  tA = failed_run A ∧ wA' = w1.
Proof.
  intros Hrun Hget. unfold failed_run.
  inversion Hrun as [|? ? ? ? ? ? ? Hget' Hrest|? ? ? ? ? ? ? ? ? Hget' Hty Hdel Hrest
                     |? ? ? ? ? ? ? ? ? ? ? Hget' Hty Hfree Hdel Hrest]; subst;
    rewrite Hget in Hget'; simplify_eq; by inversion Hrest; subst.
Qed.

End Runs.

(** * The batches of the watcher and of the sweep *)

(** C7 (action gating).  For a container event of a pod sandbox: if the
    action is kill, die, stop or destroy, the watcher searches the registry
    for the event's container ID, once; when the search returns endpoints it
    logs them and runs the deletion routine for each of them, in order, each
    run fetching the network and then deleting the record (releasing the
    address first unless the endpoint is of type "ipvlan"), or logging the
    failed fetch; when the search fails it does nothing more.  For any other
    action (create, start, an unknown one) it does nothing at all: no
    search, no deletion. *)
Theorem C7_action_gating {W} `{!Clients W} (msg : APIEvents) (s : State W) :
  Type_ msg = "container" →
  Attributes (Actor msg) !! "io.kubernetes.docker.type" = Some "podsandbox" →
  (Action msg ∈ ["kill"; "die"; "stop"; "destroy"] →
   (∀ eps w1,
      danmep_FindByCid (EventID msg) (world s) = (Ok eps, w1) →
      ∃ t w',
        Watch_receive msg s
        = (Done tt, mkState w' (trace s ++ [Call_FindByCid (EventID msg);
                                            Glog (Infof_eps eps)] ++ t))
        ∧ runs_from w1 eps t w'
        ∧ lookups (trace (Watch_receive msg s).2) = lookups (trace s) ++ [EventID msg]
        ∧ invocations (trace (Watch_receive msg s).2) = invocations (trace s) ++ eps
        ∧ length (deletions t) + length (fetch_failures t) = length eps)
   ∧ (∀ e w1,
        danmep_FindByCid (EventID msg) (world s) = (Err e, w1) →
        Watch_receive msg s
        = (Done tt, mkState w1 (trace s ++ [Call_FindByCid (EventID msg)]))))
  ∧ (Action msg ∉ ["kill"; "die"; "stop"; "destroy"] →
     Watch_receive msg s = (Done tt, s)).
Proof.
  intros Hty Hmark. split.
  - intros Hact. split.
    + intros eps w1 Hfind.
      rewrite (Watch_receive_lookup msg s Hty Hmark Hact), Hfind.
      set (s1 := mkState w1 (trace s ++ [Call_FindByCid (EventID msg); Glog (Infof_eps eps)])).
      destruct (range_guarded_runs (λ _, true) eps s1) as (t & w' & Hrun & Hruns).
      rewrite filter_always in Hruns.
      exists t, w'. rewrite Hrun. subst s1; simpl in *.
      destruct (runs_from_readers _ _ _ _ Hruns) as [Hinv Hlook].
      split; [by rewrite <- app_assoc|]. split; [exact Hruns|].
      split; [|split].
      * rewrite !lookups_app, Hlook. simpl. by rewrite app_nil_r.
      * rewrite !invocations_app, Hinv. simpl. by rewrite app_nil_r.
      * assert (routine_blocks t) as Hblocks.
        { clear -Hruns. induction Hruns.
          - constructor.
          - by apply blocks_failed.
          - by apply blocks_exempt.
          - by apply blocks_pooled. }
        destruct (routine_blocks_counts t Hblocks) as (_ & Hacc & _).
        rewrite <- Hacc. by rewrite Hinv.
    + intros e w1 Hfind.
      by rewrite (Watch_receive_lookup msg s Hty Hmark Hact), Hfind.
  - intros Hact. apply Watch_receive_discards. right; by right.
Qed.

(** A "die" of the sandbox "abc": the registry returns two endpoints; the
    record of the first is released and deleted, the fetch for the second
    fails and is logged.  A "start" of the same sandbox is followed by
    nothing. *)
Lemma C7_witness :
  let s := start (cluster [ep1; ep0; ep2]) in
  let die := sandbox_event "die" "abc" in
  (∃ t w',
     Watch_receive die s
     = (Done tt, mkState w' ([Call_FindByCid "abc"; Glog (Infof_eps [ep1; ep0])] ++ t))
     ∧ runs_from (world s) [ep1; ep0] t w'
     ∧ lookups (trace (Watch_receive die s).2) = ["abc"]
     ∧ invocations (trace (Watch_receive die s).2) = [ep1; ep0]
     ∧ length (deletions t) + length (fetch_failures t) = 2)
  ∧ deletions (trace (Watch_receive die s).2) = [("x", "ep1")]
  ∧ releases (trace (Watch_receive die s).2) = [(net1, "10.0.0.5")]
  ∧ fetch_failures (trace (Watch_receive die s).2) = ["net0"]
  ∧ Watch_receive (sandbox_event "start" "abc") s = (Done tt, s).
Proof.
  intros s die. split; [|split; [|split; [|split]]].
  - destruct (C7_action_gating die s) as [Hdeath _];
      [reflexivity|vm_compute; reflexivity|].
    refine (proj1 (Hdeath _) [ep1; ep0] (world s) _).
    + apply elem_of_cons. right. apply elem_of_cons. by left.
    + vm_compute. reflexivity.
  - vm_compute. reflexivity.
  - vm_compute. reflexivity.
  - vm_compute. reflexivity.
  - destruct (C7_action_gating (sandbox_event "start" "abc") s) as [_ Hother];
      [reflexivity|vm_compute; reflexivity|].
    apply Hother. intros Hin.
    repeat (apply elem_of_cons in Hin as [Hin|Hin]; [discriminate Hin|]).
    by apply elem_of_nil in Hin.
Defined.

(** C9 (fault isolation).  The deletion routine always returns to its
    caller, whatever its collaborators answer.  So, once its three listings
    succeeded, [cleanup] runs the routine to its end for every endpoint its
    two loops select, one whole run after the other, and returns: the run of
    an endpoint is decided by the fetch for that endpoint alone.  Whatever
    happened to the endpoints before [B] in the sweep, if the fetch for [B]
    succeeds when [B] is reached, [B]'s address is released (unless [B] is
    of type "ipvlan") and [B]'s record deleted; in particular when the fetch
    failed for an endpoint [A] before it, whose run is then the log line
    alone. *)
Theorem C9_fault_isolation {W} `{!Clients W} :
  (∀ ep (s : State W), (deleteInterface ep s).1 = Done tt)
  ∧ ∀ (s : State W) host w1 E w2 dockerDeads w3 dockerAll w4,
      os_Hostname (world s) = (Ok host, w1) →
      danmep_CidsByHost host w1 = (Ok E, w2) →
      docker_ListContainers optDead w2 = (Ok dockerDeads, w3) →
      docker_ListContainers optAll w3 = (Ok dockerAll, w4) →
      let batch :=
        (dead ← dockerDeads; filter (λ ep, CID (Spec ep) = ID dead) E)
        ++ filter (λ ep, CID (Spec ep) ∉ ID <$> dockerAll) E in
      ∃ t w',
        cleanup s
        = (Done tt, mkState w' (trace s ++ [Call_Hostname; Call_CidsByHost host;
                                            Call_ListContainers optDead;
                                            Call_ListContainers optAll] ++ t))
        ∧ runs_from w4 batch t w'
        ∧ (∀ pre B post,
             batch = pre ++ B :: post →
             ∃ tpre wB,
               runs_from w4 pre tpre wB
               ∧ ∀ netInfo wB',
                   DanmNets_Get (Namespace (ObjectMeta B)) (NetworkID (Spec B)) wB
                   = (Ok netInfo, wB') →
                   ∃ tpost, t = tpre ++ deleted_run B netInfo ++ tpost)
        ∧ (∀ pre A mid B post,
             batch = pre ++ A :: mid ++ B :: post →
             ∃ tpre wA,
               runs_from w4 pre tpre wA
               ∧ ∀ e wA',
                   DanmNets_Get (Namespace (ObjectMeta A)) (NetworkID (Spec A)) wA
                   = (Err e, wA') →
                   ∃ tmid wB,
                     runs_from wA' mid tmid wB
                     ∧ ∀ netInfo wB',
                         DanmNets_Get (Namespace (ObjectMeta B)) (NetworkID (Spec B)) wB
                         = (Ok netInfo, wB') →
                         ∃ tpost,
                           t = tpre ++ failed_run A ++ tmid
                               ++ deleted_run B netInfo ++ tpost).
Proof.
  split.
  - intros ep s. by destruct (deleteInterface_returns ep s) as (w' & t' & -> & _).
  - intros s host w1 E w2 dockerDeads w3 dockerAll w4 Hhost Heps Hdeads Hall batch.
    rewrite (cleanup_listed s _ _ _ _ _ _ _ _ Hhost Heps Hdeads Hall).
    set (s4 := mkState w4 (trace s ++ [Call_Hostname; Call_CidsByHost host;
                                       Call_ListContainers optDead;
                                       Call_ListContainers optAll])).
    destruct (cleanup_dead_runs E dockerDeads s4) as (t1 & w5 & Hrun1 & Hruns1).
    rewrite Hrun1. cbn [snd].
    destruct (cleanup_missing_runs E dockerAll (mkState w5 (trace s4 ++ t1)))
      as (t2 & w6 & Hrun2 & Hruns2).
    rewrite Hrun2. subst s4. simpl in *.
    assert (runs_from w4 batch (t1 ++ t2) w6) as Hruns
      by (by apply (runs_from_app _ _ _ w5)).
    exists (t1 ++ t2), w6. split; [by rewrite <- !app_assoc|].
    split; [exact Hruns|]. split.
    + intros pre B post Hbatch. rewrite Hbatch in Hruns.
      destruct (runs_from_split _ _ _ _ _ _ Hruns)
        as (tpre & wB & tB & wB' & tpost & Hpre & Hone & Hpost & Ht).
      exists tpre, wB. split; [exact Hpre|].
      intros netInfo wB1 Hget. exists tpost.
      by rewrite Ht, (runs_from_fetched _ _ _ _ _ _ Hone Hget).
    + intros pre A mid B post Hbatch. rewrite Hbatch in Hruns.
      destruct (runs_from_split _ _ _ _ _ _ Hruns)
        as (tpre & wA & tA & wA1 & trest & Hpre & HoneA & Hrest & Ht).
      exists tpre, wA. split; [exact Hpre|].
      intros e wA' HgetA.
      destruct (runs_from_failed _ _ _ _ _ _ HoneA HgetA) as [-> ->].
      destruct (runs_from_split _ _ _ _ _ _ Hrest)
        as (tmid & wB & tB & wB1 & tpost & Hmid & HoneB & Hpost & Ht').
      exists tmid, wB. split; [exact Hmid|].
      intros netInfo wB' HgetB. exists tpost.
      rewrite Ht, Ht', (runs_from_fetched _ _ _ _ _ _ HoneB HgetB).
      unfold failed_run, deleted_run. simpl. by rewrite <- ?app_assoc.
Qed.

(** The sweep of a host with two endpoints of the exited container "abc"
    and one of a container the runtime does not know.  The network
    definition of the first endpoint is missing: its run is the log line
    alone, and the two endpoints after it, one in each loop of the sweep,
    are released and deleted. *)
Lemma C9_witness :
  let s := start (cluster [ep0; ep1; ep3]) in
  (DanmNets_Get "x" "net0" (world s)).1 = Err "not found"
  ∧ (cleanup s).1 = Done tt
  ∧ (∃ tpost,
       trace (cleanup s).2
       = [Call_Hostname; Call_CidsByHost "node1"; Call_ListContainers optDead;
          Call_ListContainers optAll]
         ++ failed_run ep0 ++ deleted_run ep1 net1 ++ tpost)
  ∧ deletions (trace (cleanup s).2) = [("x", "ep1"); ("x", "ep3")]
  ∧ eps (world (cleanup s).2) = [ep0].
Proof.
  intros s.
  split; [vm_compute; reflexivity|].
  destruct (proj2 C9_fault_isolation s "node1" (world s) [ep0; ep1; ep3] (world s)
              [ {| ID := "abc"; Status := "exited" |} ] (world s)
              [ {| ID := "abc"; Status := "exited" |};
                {| ID := "def"; Status := "running" |} ] (world s))
    as (t & w' & Hrun & _ & _ & Hisolated); [vm_compute; reflexivity..|].
  split; [by rewrite Hrun|]. split; [|split; vm_compute; reflexivity].
  destruct (Hisolated [] ep0 [] ep1 [ep3]) as (tpre & wA & Hpre & HA);
    [vm_compute; reflexivity|].
  inversion Hpre; subst.
  destruct (HA "not found" (world s)) as (tmid & wB & Hmid & HB);
    [vm_compute; reflexivity|].
  inversion Hmid; subst.
  destruct (HB net1 (world s)) as (tpost & Ht); [vm_compute; reflexivity|].
  exists tpost. rewrite Hrun, Ht. reflexivity.
Defined.
